(** * FintcsManager: numbering, loan figures and voucher balancing

    A shallow embedding of the identifier generators and create operations
    of [server/storage.ts], the loan helpers of the utility module, the
    create-voucher route of [server/routes.ts] and the entry handling of the
    voucher page, followed by the properties established about them.

    Conventions of the embedding.
    - A JavaScript number that the code obtains from [parseInt] is either
      [NaN] or an integer; integers are kept exact ([Z]).
    - Monetary amounts are exact rationals ([Q]).
    - Strings are [string]s of 8-bit characters; [ORDER BY ... DESC] compares
      them character by character by code.
    - The database is a record of tables (lists of rows, oldest first); the
      [unique] constraint of the identifier columns is enforced on insert.
    - Asynchronous methods become computations over the world (database,
      clock, trace of database operations) that either return or throw. *)

From Stdlib Require Import ZArith NArith QArith Qfield List String Ascii Bool Lia.
From Stdlib Require OrderedTypeEx.
Import ListNotations.

Local Open Scope string_scope.

(** ** JavaScript primitives used by the code *)

Module Js.

(** Result of [parseInt] and of integer arithmetic on it. *)
Inductive number : Type :=
| NaN : number
| Num : Z -> number.

(** [x + k] for an integer literal [k]. *)
Definition plus (x : number) (k : Z) : number :=
  match x with
  | NaN => NaN
  | Num z => Num (z + k)
  end.

Definition digitChar (d : N) : ascii := ascii_of_N (48 + d).

(** Decimal digits of [n], most significant first. *)
Fixpoint decimal (fuel : nat) (n : N) : string :=
  match fuel with
  | O => EmptyString
  | S fuel' =>
      if (n <? 10)%N then String (digitChar n) EmptyString
      else decimal fuel' (n / 10) ++ String (digitChar (n mod 10)) EmptyString
  end.

Definition decimalN (n : N) : string :=
  decimal (S (N.to_nat (N.log2 n))) n.

(** [Number.prototype.toString()] on [NaN] and on integers. *)
Definition toString (x : number) : string :=
  match x with
  | NaN => "NaN"
  | Num z =>
      if (z <? 0)%Z then String "-" (decimalN (Z.abs_N z))
      else decimalN (Z.to_N z)
  end.

(** [k] characters of the endless repetition of [fill], [cur] being what
    is left of the current copy. *)
Fixpoint cycle (k : nat) (cur fill : string) : string :=
  match k with
  | O => EmptyString
  | S k' =>
      match cur with
      | String c cur' => String c (cycle k' cur' fill)
      | EmptyString =>
          match fill with
          | EmptyString => EmptyString
          | String c fill' => String c (cycle k' fill' fill)
          end
      end
  end.

(** [s.padStart(target, fill)]. *)
Definition padStart (target : nat) (fill : string) (s : string) : string :=
  if (target <=? String.length s)%nat then s
  else cycle (target - String.length s) fill fill ++ s.

(** [s.slice(start)], also for a negative [start]. *)
Definition slice (start : Z) (s : string) : string :=
  let len := Z.of_nat (String.length s) in
  let from := if (start <? 0)%Z then Z.max (len + start) 0 else Z.min start len in
  substring (Z.to_nat from) (Z.to_nat (len - from)) s.

(** [s.split(sep)] for a one-character separator. *)
Fixpoint split (sep : ascii) (s : string) : list string :=
  match s with
  | EmptyString => [EmptyString]
  | String c s' =>
      if Ascii.eqb c sep then EmptyString :: split sep s'
      else match split sep s' with
           | [] => [String c EmptyString]
           | piece :: pieces => String c piece :: pieces
           end
  end.

(** [s.charAt(0)]. *)
Definition charAt0 (s : string) : string :=
  match s with
  | EmptyString => EmptyString
  | String c _ => String c EmptyString
  end.

Definition upperChar (c : ascii) : ascii :=
  let n := N_of_ascii c in
  if ((97 <=? n) && (n <=? 122))%N then ascii_of_N (n - 32) else c.

(** [s.toUpperCase()] on 8-bit characters. *)
Fixpoint toUpperCase (s : string) : string :=
  match s with
  | EmptyString => EmptyString
  | String c s' => String (upperChar c) (toUpperCase s')
  end.

(** White space skipped by [parseInt]: TAB, LF, VT, FF, CR, SP. *)
Definition isWhite (c : ascii) : bool :=
  let n := N_of_ascii c in
  ((9 <=? n) && (n <=? 13) || (n =? 32))%N.

Fixpoint trimStart (s : string) : string :=
  match s with
  | EmptyString => EmptyString
  | String c s' => if isWhite c then trimStart s' else s
  end.

(** Value of [c] as a digit of the given radix, if it is one. *)
Definition digitValue (radix : N) (c : ascii) : option N :=
  let n := N_of_ascii c in
  let v :=
    if ((48 <=? n) && (n <=? 57))%N then Some (n - 48)%N
    else if ((97 <=? n) && (n <=? 122))%N then Some (n - 87)%N
    else if ((65 <=? n) && (n <=? 90))%N then Some (n - 55)%N
    else None in
  match v with
  | Some d => if (d <? radix)%N then Some d else None
  | None => None
  end.

(** Reads the longest prefix of digits; [seen] tells whether a digit was
    read, [acc] is their value so far. *)
Fixpoint readDigits (radix : N) (s : string) (seen : bool) (acc : N) : option N :=
  match s with
  | EmptyString => if seen then Some acc else None
  | String c s' =>
      match digitValue radix c with
      | Some d => readDigits radix s' true (acc * radix + d)
      | None => if seen then Some acc else None
      end
  end.

Definition signed (negative : bool) (n : N) : Z :=
  if negative then (- Z.of_N n)%Z else Z.of_N n.

(** [parseInt(s)] without a radix argument: leading white space, an
    optional sign, an optional [0x]/[0X] prefix selecting radix 16, then
    the longest run of digits; [NaN] when there is none. *)
Definition parseInt (s : string) : number :=
  let s1 := trimStart s in
  let '(negative, s2) :=
    match s1 with
    | String "-" r => (true, r)
    | String "+" r => (false, r)
    | _ => (false, s1)
    end in
  let '(radix, s3) :=
    match s2 with
    | String "0" (String "x" r) => (16%N, r)
    | String "0" (String "X" r) => (16%N, r)
    | _ => (10%N, s2)
    end in
  match readDigits radix s3 false 0 with
  | Some n => Num (signed negative n)
  | None => NaN
  end.

(** [parseInt(a[i])] where the element may be missing: [undefined] is
    converted to the string "undefined", which has no digits. *)
Definition parseIntAt (x : option string) : number :=
  match x with
  | Some s => parseInt s
  | None => parseInt "undefined"
  end.

(** A string is falsy exactly when it is empty. *)
Definition falsy (s : string) : bool :=
  match s with
  | EmptyString => true
  | String _ _ => false
  end.

End Js.

(** ** Data model ([shared/schema.ts]) and the world the server runs in *)

Module Schema.

(** One line of a voucher: the [VoucherEntry] interface. *)
Record VoucherEntry : Type := mkEntry {
  particulars : string;
  debit : Q;
  credit : Q
}.

(** [voucherTypeEnum]. *)
Inductive VoucherType : Type :=
| payment | receipt | journal | contra | adjustment | others.

Definition voucherTypeName (t : VoucherType) : string :=
  match t with
  | payment => "payment"
  | receipt => "receipt"
  | journal => "journal"
  | contra => "contra"
  | adjustment => "adjustment"
  | others => "others"
  end.

Definition allVoucherTypes : list VoucherType :=
  [payment; receipt; journal; contra; adjustment; others].

Definition voucherTypeOfName (s : string) : option VoucherType :=
  find (fun t => String.eqb (voucherTypeName t) s) allVoucherTypes.

Definition VoucherType_eqb (a b : VoucherType) : bool :=
  String.eqb (voucherTypeName a) (voucherTypeName b).

(** The columns of a row other than the ones the code looks at, as
    name/value pairs. *)
Definition Fields : Type := list (string * string).

(** [InsertMember], [InsertLoan], [InsertVoucher]: the identifier columns
    are [notNull], so they are strings in the insert types. *)
Record InsertMember : Type := mkMember {
  memNo : string;
  memberFields : Fields
}.

Record InsertLoan : Type := mkLoan {
  loanNo : string;
  loanFields : Fields
}.

Record InsertVoucher : Type := mkVoucher {
  voucherNo : string;
  voucherType : VoucherType;
  entries : list VoucherEntry;
  voucherFields : Fields
}.

End Schema.

Module Db.
Import Schema.

(** The three tables, oldest row first. *)
Record Tables : Type := mkTables {
  members : list InsertMember;
  loans : list InsertLoan;
  vouchers : list InsertVoucher
}.

(** Statements sent to the database. *)
Inductive Op : Type :=
| SelectLastMemNo
| SelectLastLoanNo
| SelectLastVoucherNo (type : string)
| InsertIntoMembers (row : InsertMember)
| InsertIntoLoans (row : InsertLoan)
| InsertIntoVouchers (row : InsertVoucher).

Record World : Type := mkWorld {
  tables : Tables;
  fullYear : Z;          (* new Date().getFullYear() *)
  trace : list Op        (* statements issued so far, oldest first *)
}.

Inductive Error : Type :=
| UniqueViolation (column value : string)
| ZodError.

Inductive Outcome (A : Type) : Type :=
| Returned (a : A)
| Thrown (e : Error).
Arguments Returned {A} a.
Arguments Thrown {A} e.

(** An asynchronous computation: runs in a world, returns or throws, and
    leaves a world. *)
Definition M (A : Type) : Type := World -> Outcome A * World.

Definition ret {A} (a : A) : M A := fun w => (Returned a, w).

Definition throw {A} (e : Error) : M A := fun w => (Thrown e, w).

Definition bind {A B} (m : M A) (k : A -> M B) : M B :=
  fun w =>
    match m w with
    | (Returned a, w') => k a w'
    | (Thrown e, w') => (Thrown e, w')
    end.

(** [try { body } catch (error) { handler }]. *)
Definition tryCatch {A} (body : M A) (handler : Error -> M A) : M A :=
  fun w =>
    match body w with
    | (Returned a, w') => (Returned a, w')
    | (Thrown e, w') => handler e w'
    end.

Definition issue (op : Op) (w : World) : World :=
  mkWorld (tables w) (fullYear w) (trace w ++ [op]).

Definition withTables (t : Tables) (w : World) : World :=
  mkWorld t (fullYear w) (trace w).

Definition getFullYear : M Z := fun w => (Returned (fullYear w), w).

(** [ORDER BY key DESC LIMIT 1] over the given keys: a greatest key, none
    for no rows. *)
Definition greater (best : option string) (k : string) : option string :=
  match best with
  | None => Some k
  | Some b => if String.ltb b k then Some k else Some b
  end.

Definition orderByDescLimit1 (keys : list string) : option string :=
  fold_left greater keys None.

Definition selectLastMemNo : M (option string) :=
  fun w =>
    (Returned (orderByDescLimit1 (map memNo (members (tables w)))),
     issue SelectLastMemNo w).

Definition selectLastLoanNo : M (option string) :=
  fun w =>
    (Returned (orderByDescLimit1 (map loanNo (loans (tables w)))),
     issue SelectLastLoanNo w).

(** [WHERE voucher_type = type ORDER BY voucher_no DESC LIMIT 1]. *)
Definition selectLastVoucherNo (type : string) : M (option string) :=
  fun w =>
    (Returned
       (orderByDescLimit1
          (map voucherNo
             (filter (fun v => String.eqb (voucherTypeName (voucherType v)) type)
                (vouchers (tables w))))),
     issue (SelectLastVoucherNo type) w).

Definition taken (key : string) (keys : list string) : bool :=
  existsb (String.eqb key) keys.

(** [db.insert(t).values(row).returning()]: refused when the identifier is
    already in the table. *)
Definition insertIntoMembers (row : InsertMember) : M InsertMember :=
  fun w =>
    let w1 := issue (InsertIntoMembers row) w in
    let t := tables w in
    if taken (memNo row) (map memNo (members t))
    then (Thrown (UniqueViolation "mem_no" (memNo row)), w1)
    else (Returned row,
          withTables (mkTables (members t ++ [row]) (loans t) (vouchers t)) w1).

Definition insertIntoLoans (row : InsertLoan) : M InsertLoan :=
  fun w =>
    let w1 := issue (InsertIntoLoans row) w in
    let t := tables w in
    if taken (loanNo row) (map loanNo (loans t))
    then (Thrown (UniqueViolation "loan_no" (loanNo row)), w1)
    else (Returned row,
          withTables (mkTables (members t) (loans t ++ [row]) (vouchers t)) w1).

Definition insertIntoVouchers (row : InsertVoucher) : M InsertVoucher :=
  fun w =>
    let w1 := issue (InsertIntoVouchers row) w in
    let t := tables w in
    if taken (voucherNo row) (map voucherNo (vouchers t))
    then (Thrown (UniqueViolation "voucher_no" (voucherNo row)), w1)
    else (Returned row,
          withTables (mkTables (members t) (loans t) (vouchers t ++ [row])) w1).

Definition emptyTables : Tables := mkTables [] [] [].

Definition startWorld (year : Z) : World := mkWorld emptyTables year [].

End Db.

Declare Scope async_scope.
Delimit Scope async_scope with async.
Notation "x <- m ;; k" := (Db.bind m (fun x => k))
  (at level 61, m at next level, right associativity) : async_scope.

(** ** [server/storage.ts]: class [DatabaseStorage] *)

Module Storage.
Import Schema Db.
Local Open Scope async_scope.

Definition generateMemberNumber : M string :=
  lastMember <- selectLastMemNo ;;
  match lastMember with
  | None => ret "MEM_001"
  | Some lastMemNo =>
      let lastNumber := Js.parseIntAt (nth_error (Js.split "_" lastMemNo) 1) in
      let nextNumber := Js.plus lastNumber 1 in
      ret ("MEM_" ++ Js.padStart 3 "0" (Js.toString nextNumber))
  end.

Definition createMember (insertMember : InsertMember) : M InsertMember :=
  insertMember' <-
    (if Js.falsy (memNo insertMember)
     then no <- generateMemberNumber ;;
          ret (mkMember no (memberFields insertMember))
     else ret insertMember) ;;
  insertIntoMembers insertMember'.

Definition yearSuffixOf (currentYear : Z) : string :=
  Js.slice (-2) (Js.toString (Js.Num currentYear)).

Definition generateLoanNumber : M string :=
  currentYear <- getFullYear ;;
  let yearSuffix := yearSuffixOf currentYear in
  lastLoan <- selectLastLoanNo ;;
  match lastLoan with
  | None => ret ("L" ++ yearSuffix ++ "001")
  | Some lastLoanNo =>
      let lastNumber := Js.parseInt (Js.slice 3 lastLoanNo) in
      let nextNumber := Js.plus lastNumber 1 in
      ret ("L" ++ yearSuffix ++ Js.padStart 3 "0" (Js.toString nextNumber))
  end.

Definition createLoan (insertLoan : InsertLoan) : M InsertLoan :=
  insertLoan' <-
    (if Js.falsy (loanNo insertLoan)
     then no <- generateLoanNumber ;;
          ret (mkLoan no (loanFields insertLoan))
     else ret insertLoan) ;;
  insertIntoLoans insertLoan'.

Definition generateVoucherNumber (type : string) : M string :=
  let typePrefix := Js.toUpperCase (Js.charAt0 type) in
  currentYear <- getFullYear ;;
  let yearSuffix := yearSuffixOf currentYear in
  lastVoucher <- selectLastVoucherNo type ;;
  match lastVoucher with
  | None => ret (typePrefix ++ yearSuffix ++ "001")
  | Some lastVoucherNo =>
      let lastNumber := Js.parseInt (Js.slice 3 lastVoucherNo) in
      let nextNumber := Js.plus lastNumber 1 in
      ret (typePrefix ++ yearSuffix ++ Js.padStart 3 "0" (Js.toString nextNumber))
  end.

Definition createVoucher (insertVoucher : InsertVoucher) : M InsertVoucher :=
  insertVoucher' <-
    (if Js.falsy (voucherNo insertVoucher)
     then no <- generateVoucherNumber (voucherTypeName (voucherType insertVoucher)) ;;
          ret (mkVoucher no (voucherType insertVoucher) (entries insertVoucher)
                 (voucherFields insertVoucher))
     else ret insertVoucher) ;;
  insertIntoVouchers insertVoucher'.

End Storage.

(** ** The utility module: loan figures *)

Module Utils.


(** [n > 0] on numbers. *)
Definition gt0 (n : Q) : bool := negb (Qle_bool n 0).


(** [generateMemberNumber(lastNumber = 0)] of the utility module. *)
Definition generateMemberNumber (lastNumber : option Z) : string :=
  let lastNumber := match lastNumber with Some n => n | None => 0%Z end in
  let nextNumber := (lastNumber + 1)%Z in
  "MEM_" ++ Js.padStart 3 "0" (Js.toString (Js.Num nextNumber)).

End Utils.

(** ** [server/routes.ts]: the create-voucher route, with its middleware *)

Module Routes.
Import Schema Db.
Local Open Scope async_scope.

(** [userRoleEnum]. *)
Inductive Role : Type := super_admin | society_admin | user | member.

Definition Role_eqb (a b : Role) : bool :=
  match a, b with
  | super_admin, super_admin | society_admin, society_admin
  | user, user | member, member => true
  | _, _ => false
  end.

(** What [authenticateToken] finds in the request. *)
Inductive Credentials : Type :=
| NoToken                     (* no bearer token *)
| BadToken                    (* verification throws *)
| UnknownOrInactive           (* no such user, or not active *)
| ActiveUser (role : Role).

(** The JSON body of a create-voucher request; a property may be
    missing. *)
Record VoucherBody : Type := mkBody {
  bodyVoucherNo : option string;
  bodyVoucherType : option string;
  bodyVoucherDate : option string;
  bodyEntries : list VoucherEntry;
  bodyFields : Fields
}.

Record Request : Type := mkRequest {
  credentials : Credentials;
  body : VoucherBody
}.

Inductive Payload : Type :=
| Message (text : string)
| VoucherJson (row : InsertVoucher).

Record Response : Type := mkResponse {
  status : nat;
  json : Payload
}.

(** [insertVoucherSchema.parse]: the schema is derived from the columns of
    the table. [voucherNo], [voucherType] and [voucherDate] are [notNull]
    without default, hence required, and [voucherType] must be a member of
    the enum; [entries] is a [jsonb] column and accepts any value. *)
Definition insertVoucherSchema_parse (b : VoucherBody) : M InsertVoucher :=
  match bodyVoucherNo b, bodyVoucherType b, bodyVoucherDate b with
  | Some no, Some type, Some date =>
      match voucherTypeOfName type with
      | Some t =>
          ret (mkVoucher no t (bodyEntries b)
                 (("voucherDate", date) :: bodyFields b))
      | None => throw ZodError
      end
  | _, _, _ => throw ZodError
  end.

(** The handler proper. *)
Definition createVoucherHandler (req : Request) : M Response :=
  tryCatch
    (voucherData <- insertVoucherSchema_parse (body req) ;;
     voucher <- Storage.createVoucher voucherData ;;
     ret (mkResponse 201 (VoucherJson voucher)))
    (fun _ => ret (mkResponse 500 (Message "Failed to create voucher"))).

(** [authenticateToken]: answers itself or passes the user on. *)
Definition authenticateToken (req : Request) : Response + Role :=
  match credentials req with
  | NoToken => inl (mkResponse 401 (Message "Access token required"))
  | BadToken => inl (mkResponse 403 (Message "Invalid or expired token"))
  | UnknownOrInactive => inl (mkResponse 401 (Message "Invalid or inactive user"))
  | ActiveUser r => inr r
  end.

(** [requireRole(roles)] once [req.user] is set. *)
Definition requireRole (roles : list Role) (r : Role) : option Response :=
  if existsb (Role_eqb r) roles then None
  else Some (mkResponse 403 (Message "Insufficient permissions")).

(** [app.post('/api/vouchers', authenticateToken, requireRole([...]), handler)]. *)
Definition postApiVouchers (req : Request) : M Response :=
  match authenticateToken req with
  | inl resp => ret resp
  | inr r =>
      match requireRole [super_admin; society_admin] r with
      | Some resp => ret resp
      | None => createVoucherHandler req
      end
  end.

End Routes.

(** ** The voucher page: entries of the voucher being edited *)

Module VoucherPage.
Import Schema.

(** ['debit' | 'credit']. *)
Inductive EntryType : Type := debitType | creditType.

Definition EntryType_eqb (a b : EntryType) : bool :=
  match a, b with
  | debitType, debitType | creditType, creditType => true
  | _, _ => false
  end.

(** The [currentEntry] state. *)
Record CurrentEntry : Type := mkCurrent {
  curParticulars : string;
  curDebit : Q;
  curCredit : Q;
  curType : EntryType;
  curAmount : Q
}.

Definition blankEntry : CurrentEntry :=
  mkCurrent EmptyString 0 0 debitType 0.

(** The [formData] state. *)
Record FormData : Type := mkForm {
  formVoucherType : string;
  formVoucherNo : string;
  formVoucherDate : string;
  formOther : Fields
}.

(** State of the component that the entry operations read and write. *)
Record State : Type := mkState {
  formData : FormData;
  entries : list VoucherEntry;
  currentEntry : CurrentEntry;
  selectedVoucher : option string;   (* id of the voucher being edited *)
  toasts : list string               (* messages shown, oldest first *)
}.

Definition setEntries (es : list VoucherEntry) (st : State) : State :=
  mkState (formData st) es (currentEntry st) (selectedVoucher st) (toasts st).

Definition setCurrentEntry (c : CurrentEntry) (st : State) : State :=
  mkState (formData st) (entries st) c (selectedVoucher st) (toasts st).

Definition toast (text : string) (st : State) : State :=
  mkState (formData st) (entries st) (currentEntry st) (selectedVoucher st)
    (toasts st ++ [text]).

Definition newEntryOf (c : CurrentEntry) : VoucherEntry :=
  mkEntry (curParticulars c)
    (if EntryType_eqb (curType c) debitType then curAmount c else 0)
    (if EntryType_eqb (curType c) creditType then curAmount c else 0).

Definition addEntry (st : State) : State :=
  if Js.falsy (curParticulars (currentEntry st))
  then toast "Please enter particulars" st
  else
    let newEntry := newEntryOf (currentEntry st) in
    setCurrentEntry blankEntry (setEntries (entries st ++ [newEntry]) st).

(** [a.filter((_, i) => i !== index)], [i] counting from [from]. *)
Fixpoint filterIndexNot {A} (index from : nat) (a : list A) : list A :=
  match a with
  | [] => []
  | x :: a' =>
      if Nat.eqb from index then filterIndexNot index (S from) a'
      else x :: filterIndexNot index (S from) a'
  end.

Definition removeEntry (index : nat) (st : State) : State :=
  setEntries (filterIndexNot index 0 (entries st)) st.

(** [calculateTotals]: two [reduce]s from 0. *)
Definition calculateTotals (es : list VoucherEntry) : Q * Q :=
  let totalDebit := fold_left (fun sum entry => (sum + debit entry)%Q) es 0%Q in
  let totalCredit := fold_left (fun sum entry => (sum + credit entry)%Q) es 0%Q in
  (totalDebit, totalCredit).

Definition isBalanced (es : list VoucherEntry) : bool :=
  let '(totalDebit, totalCredit) := calculateTotals es in
  Qeq_bool totalDebit totalCredit && Utils.gt0 totalDebit.

(** What [handleSubmit] hands to the mutations. *)
Record VoucherData : Type := mkData {
  dataForm : FormData;
  dataEntries : list VoucherEntry;
  dataTotalDebit : Q;
  dataTotalCredit : Q
}.

Inductive Submission : Type :=
| Refused (st : State)                        (* a toast, nothing sent *)
| UpdateMutation (id : string) (updates : VoucherData)
| CreateMutation (data : VoucherData).

Definition handleSubmit (st : State) : Submission :=
  if negb (isBalanced (entries st))
  then Refused (toast "Debit and Credit totals must be equal and greater than zero" st)
  else
    let '(totalDebit, totalCredit) := calculateTotals (entries st) in
    let voucherData := mkData (formData st) (entries st) totalDebit totalCredit in
    match selectedVoucher st with
    | Some id => UpdateMutation id voucherData
    | None => CreateMutation voucherData
    end.


(** What the form can do to the entries between two resets. *)
Inductive EntryOp : Type :=
| AddEntry (c : CurrentEntry)       (* fill in the current entry, then add *)
| RemoveEntry (index : nat).

Definition applyOp (st : State) (op : EntryOp) : State :=
  match op with
  | AddEntry c => addEntry (setCurrentEntry c st)
  | RemoveEntry index => removeEntry index st
  end.

Definition initialState (f : FormData) : State :=
  mkState f [] blankEntry None [].

End VoucherPage.

(** ** Vocabulary of the properties *)

Module Fmt.

Definition isDigit (c : ascii) : bool :=
  let n := N_of_ascii c in ((48 <=? n) && (n <=? 57))%N.

Fixpoint allDigits (s : string) : bool :=
  match s with
  | EmptyString => true
  | String c s' => isDigit c && allDigits s'
  end.

(** A non-empty run of decimal digits: a valid integer suffix. *)
Definition isDecimal (s : string) : bool :=
  negb (Js.falsy s) && allDigits s.

(** The number written by a run of decimal digits, continuing [acc]. *)
Fixpoint valueFrom (acc : N) (s : string) : N :=
  match s with
  | EmptyString => acc
  | String c s' => valueFrom (acc * 10 + (N_of_ascii c - 48)) s'
  end.

Definition decimalValue (s : string) : N := valueFrom 0 s.

(** Fuel that lets [Js.decimal] write all of [n]. *)
Definition enough (fuel : nat) (n : N) : Prop :=
  fuel <> O /\ (n < 2 ^ N.of_nat fuel)%N.

Fixpoint zeros (k : nat) : string :=
  match k with
  | O => EmptyString
  | S k' => String "0" (zeros k')
  end.

(** [n] in decimal, zero-padded to at least [width] digits and no
    further: the format [{n:03d}] for [width = 3]. *)
Definition padded (width : nat) (n : N) : string :=
  zeros (width - String.length (Js.decimalN n)) ++ Js.decimalN n.


(** The greatest key of a table, as the generators fetch it. *)
Definition lastMemNo (w : Db.World) : option string :=
  Db.orderByDescLimit1 (map Schema.memNo (Db.members (Db.tables w))).

Definition lastLoanNo (w : Db.World) : option string :=
  Db.orderByDescLimit1 (map Schema.loanNo (Db.loans (Db.tables w))).

Definition lastVoucherNo (type : Schema.VoucherType) (w : Db.World) : option string :=
  Db.orderByDescLimit1
    (map Schema.voucherNo
       (filter (fun v => Schema.VoucherType_eqb (Schema.voucherType v) type)
          (Db.vouchers (Db.tables w)))).

(** The statements issued while going from world [w] to world [w']. *)
Definition issued (w w' : Db.World) : list Db.Op :=
  skipn (List.length (Db.trace w)) (Db.trace w').

(** The outcome [run] of a create operation started in world [w]: after
    the statements [before], the one statement that inserts [row] was
    issued and nothing else; the row is returned and is the new last row
    of its table, the other tables being untouched, unless its identifier
    was taken, in which case the insert is refused and no table changes. *)
Definition insertsMember (before : list Db.Op) (row : Schema.InsertMember)
    (w : Db.World) (run : Db.Outcome Schema.InsertMember * Db.World) : Prop :=
  let t := Db.tables w in
  issued w (snd run) = (before ++ [Db.InsertIntoMembers row])%list
  /\ (Db.taken (Schema.memNo row) (map Schema.memNo (Db.members t)) = false ->
      fst run = Db.Returned row
      /\ Db.tables (snd run)
         = Db.mkTables (Db.members t ++ [row]) (Db.loans t) (Db.vouchers t))
  /\ (Db.taken (Schema.memNo row) (map Schema.memNo (Db.members t)) = true ->
      fst run = Db.Thrown (Db.UniqueViolation "mem_no" (Schema.memNo row))
      /\ Db.tables (snd run) = t).

Definition insertsLoan (before : list Db.Op) (row : Schema.InsertLoan)
    (w : Db.World) (run : Db.Outcome Schema.InsertLoan * Db.World) : Prop :=
  let t := Db.tables w in
  issued w (snd run) = (before ++ [Db.InsertIntoLoans row])%list
  /\ (Db.taken (Schema.loanNo row) (map Schema.loanNo (Db.loans t)) = false ->
      fst run = Db.Returned row
      /\ Db.tables (snd run)
         = Db.mkTables (Db.members t) (Db.loans t ++ [row]) (Db.vouchers t))
  /\ (Db.taken (Schema.loanNo row) (map Schema.loanNo (Db.loans t)) = true ->
      fst run = Db.Thrown (Db.UniqueViolation "loan_no" (Schema.loanNo row))
      /\ Db.tables (snd run) = t).

Definition insertsVoucher (before : list Db.Op) (row : Schema.InsertVoucher)
    (w : Db.World) (run : Db.Outcome Schema.InsertVoucher * Db.World) : Prop :=
  let t := Db.tables w in
  issued w (snd run) = (before ++ [Db.InsertIntoVouchers row])%list
  /\ (Db.taken (Schema.voucherNo row) (map Schema.voucherNo (Db.vouchers t)) = false ->
      fst run = Db.Returned row
      /\ Db.tables (snd run)
         = Db.mkTables (Db.members t) (Db.loans t) (Db.vouchers t ++ [row]))
  /\ (Db.taken (Schema.voucherNo row) (map Schema.voucherNo (Db.vouchers t)) = true ->
      fst run = Db.Thrown (Db.UniqueViolation "voucher_no" (Schema.voucherNo row))
      /\ Db.tables (snd run) = t).

(** Credentials that pass [authenticateToken] and
    [requireRole(['super_admin', 'society_admin'])]. *)
Definition admitted (c : Routes.Credentials) : bool :=
  match c with
  | Routes.ActiveUser Routes.super_admin
  | Routes.ActiveUser Routes.society_admin => true
  | _ => false
  end.

(** An entry that has an amount on one side at most. *)
Definition singleSided (e : Schema.VoucherEntry) : Prop :=
  Schema.debit e = 0 \/ Schema.credit e = 0.

End Fmt.

(** ** The spec's own words, for comparison with the code *)

Module SpecWords.
Import Schema.

(** sum(debit), sum(credit) of a sequence of entries. *)
Fixpoint sumDebit (es : list VoucherEntry) : Q :=
  match es with
  | [] => 0
  | e :: es' => debit e + sumDebit es'
  end.

Fixpoint sumCredit (es : list VoucherEntry) : Q :=
  match es with
  | [] => 0
  | e :: es' => credit e + sumCredit es'
  end.

(** [sum(debit) == sum(credit) && sum(debit) > 0]. *)
Definition balanced (es : list VoucherEntry) : Prop :=
  sumDebit es == sumCredit es /\ 0 < sumDebit es.


End SpecWords.

(** ** Sample worlds *)

Module Samples.
Import Schema Db.

Definition membersWorld (year : Z) (memNos : list string) : World :=
  mkWorld (mkTables (map (fun no => mkMember no []) memNos) [] []) year [].

Definition loansWorld (year : Z) (loanNos : list string) : World :=
  mkWorld (mkTables [] (map (fun no => mkLoan no []) loanNos) []) year [].

Definition vouchersWorld (year : Z) (rows : list (VoucherType * string)) : World :=
  mkWorld
    (mkTables [] [] (map (fun r => mkVoucher (snd r) (fst r) [] []) rows))
    year [].

(** A member, a loan and a voucher submitted with an identifier. *)
Definition namedMember : InsertMember := mkMember "MEM_500" [("name", "Ravi")].

Definition namedLoan : InsertLoan := mkLoan "L24500" [("edpNo", "EDP000456")].

Definition namedVoucher : InsertVoucher :=
  mkVoucher "J24500" journal [mkEntry "Cash" 100 0; mkEntry "Bank" 0 100]
    [("narration", "transfer")].

(** A world with one row in each table. *)
Definition smallWorld : World :=
  mkWorld
    (mkTables [mkMember "MEM_001" []] [mkLoan "L24001" []]
       [mkVoucher "J24001" journal [] []])
    2024 [].




(** The voucher form holding the same entries, holding balanced entries,
    and in the middle of adding a credit line. *)
Definition paymentForm : VoucherPage.FormData :=
  VoucherPage.mkForm "payment" EmptyString "2024-04-01" [("narration", "rent")].


Definition balancedForm : VoucherPage.State :=
  VoucherPage.mkState paymentForm
    [mkEntry "Cash" 100 0; mkEntry "Bank" 0 100] VoucherPage.blankEntry None [].

Definition fillingForm : VoucherPage.State :=
  VoucherPage.mkState paymentForm [mkEntry "Cash" 100 0]
    (VoucherPage.mkCurrent "Bank" 0 0 VoucherPage.creditType 100) None [].

Definition fillingDebitForm : VoucherPage.State :=
  VoucherPage.mkState paymentForm []
    (VoucherPage.mkCurrent "Cash" 0 0 VoucherPage.debitType 100) None [].



(** A member, a loan and a voucher submitted without identifier. *)
Definition newMember : InsertMember := mkMember EmptyString [("name", "Asha")].

Definition newLoan : InsertLoan := mkLoan EmptyString [("edpNo", "EDP000123")].

Definition newVoucher (t : VoucherType) (es : list VoucherEntry) : InsertVoucher :=
  mkVoucher EmptyString t es [("narration", "rent")].

(** [k] members created one after the other, each without identifier. *)
Fixpoint enrol (k : nat) (w : World) : World :=
  match k with
  | O => w
  | S k' => enrol k' (snd (Storage.createMember newMember w))
  end.

End Samples.

(** ** Proof steps used more than once *)

(** Case analysis on the eight bits of a character. *)
Ltac bits c := destruct c as [[] [] [] [] [] [] [] []].

(** First projection of an explicit pair. *)
Ltac fst_of_pair :=
  repeat match goal with
         | |- context [fst (?a, ?b)] => change (fst (a, b)) with a
         end.

(** ** Vocabulary for the numbering of members and vouchers *)

Module Numbering.

(** The uppercase initial of a voucher type. *)
Definition typeInitial (t : Schema.VoucherType) : string :=
  match t with
  | Schema.payment => "P"
  | Schema.receipt => "R"
  | Schema.journal => "J"
  | Schema.contra => "C"
  | Schema.adjustment => "A"
  | Schema.others => "O"
  end.

(** The member number with counter [n]. *)
Definition memberNumber (n : N) : string := "MEM_" ++ Fmt.padded 3 n.

(** [MEM_001] up to the member number with counter [k]. *)
Definition memberNumbers (k : nat) : list string :=
  map (fun i => memberNumber (N.of_nat i)) (seq 1 k).

(** A member number with a three-digit counter that leaves room for a
    successor of three digits. *)
Definition threeDigits (key : string) : Prop :=
  exists n, (n < 999)%N /\ key = memberNumber n.

Definition memNos (w : Db.World) : list string :=
  map Schema.memNo (Db.members (Db.tables w)).

(** The vouchers of one type. *)
Definition vouchersOf (t : Schema.VoucherType) (w : Db.World) : list Schema.InsertVoucher :=
  filter (fun v => Schema.VoucherType_eqb (Schema.voucherType v) t)
    (Db.vouchers (Db.tables w)).

End Numbering.

(** ** The auth hook of the client: [hasRole] *)

Module ClientAuth.

(** [hasRole(roles)] for the logged-in [user], if any. *)
Definition hasRole (user : option Routes.Role) (roles : list Routes.Role) : bool :=
  match user with
  | Some r => existsb (Routes.Role_eqb r) roles
  | None => false
  end.

(** The guard at the top of the voucher page:
    [if (!hasRole(['super_admin', 'society_admin']))] the page shows that
    access is denied. *)
Definition voucherPageOpens (user : option Routes.Role) : bool :=
  hasRole user [Routes.super_admin; Routes.society_admin].

End ClientAuth.

(** ** The voucher page: opening, resetting and editing *)

Module VoucherDialog.
Import Schema.

(** The [Voucher] interface of the page: a row as the server returns it;
    optional properties and the nullable [entries] column may be missing. *)
Record Voucher : Type := mkVoucherRow {
  id : string;
  voucherNo : string;
  voucherType : string;
  voucherDate : string;
  entries : option (list VoucherEntry);
  totalDebit : string;
  totalCredit : string;
  chequeNo : option string;
  chequeDate : option string;
  narration : option string;
  remarks : option string;
  isActive : bool
}.

(** The state of [VoucherPage] with the flag of the dialog. *)
Record Page : Type := mkPage {
  state : VoucherPage.State;
  isDialogOpen : bool
}.

(** [x || ''] for an optional string. *)
Definition orEmpty (x : option string) : string :=
  match x with
  | Some s => s
  | None => EmptyString
  end.

(** [s.split('T')[0]]. *)
Definition datePart (s : string) : string :=
  hd EmptyString (Js.split "T" s).

(** [resetForm], [today] being [new Date().toISOString().split('T')[0]]. *)
Definition resetForm (today : string) (p : Page) : Page :=
  mkPage
    (VoucherPage.mkState
       (VoucherPage.mkForm "payment" EmptyString today
          [("chequeNo", EmptyString); ("chequeDate", EmptyString);
           ("narration", EmptyString); ("remarks", EmptyString)])
       []
       VoucherPage.blankEntry
       None
       (VoucherPage.toasts (state p)))
    (isDialogOpen p).

Definition handleEdit (voucher : Voucher) (p : Page) : Page :=
  mkPage
    (VoucherPage.mkState
       (VoucherPage.mkForm (voucherType voucher) (voucherNo voucher)
          (datePart (voucherDate voucher))
          [("chequeNo", orEmpty (chequeNo voucher));
           ("chequeDate",
            match chequeDate voucher with
            | Some s => if Js.falsy s then EmptyString else datePart s
            | None => EmptyString
            end);
           ("narration", orEmpty (narration voucher));
           ("remarks", orEmpty (remarks voucher))])
       (match entries voucher with Some es => es | None => [] end)
       (VoucherPage.currentEntry (state p))
       (Some (id voucher))
       (VoucherPage.toasts (state p)))
    true.

Definition clearEntry (p : Page) : Page :=
  mkPage (VoucherPage.setCurrentEntry VoucherPage.blankEntry (state p))
    (isDialogOpen p).

(** The remove button of the row shown at position [index] of the entries
    table calls [removeEntry(index)]. *)
Definition clickRemove (index : nat) (p : Page) : Page :=
  mkPage (VoucherPage.removeEntry index (state p)) (isDialogOpen p).

End VoucherDialog.

(** ** The data table of the client: search, sort and pages *)

Module DataTable.

Inductive Direction : Type := asc | desc.

(** The props that steer the table, with their defaults. *)
Record Props : Type := mkProps {
  searchable : bool;
  sortable : bool;
  paginated : bool;
  pageSize : positive
}.

Definition defaultProps : Props := mkProps true true true 10.

Record State : Type := mkState {
  currentPage : Z;
  searchTerm : string;
  sortColumn : option string;
  sortDirection : Direction;
  itemsPerPage : positive
}.

Definition initialState (props : Props) : State :=
  mkState 1 EmptyString None asc (pageSize props).

Definition lowerChar (c : ascii) : ascii :=
  let n := N_of_ascii c in
  if ((65 <=? n) && (n <=? 90))%N then ascii_of_N (n + 32) else c.

(** [s.toLowerCase()] on 8-bit characters. *)
Fixpoint toLowerCase (s : string) : string :=
  match s with
  | EmptyString => EmptyString
  | String c s' => String (lowerChar c) (toLowerCase s')
  end.

(** [hay.includes(needle)]. *)
Fixpoint includes (needle hay : string) : bool :=
  String.prefix needle hay
  || match hay with
     | EmptyString => false
     | String _ hay' => includes needle hay'
     end.

(** [a.slice(start, end)] on arrays, also for negative positions. *)
Definition slice {A} (first last : Z) (a : list A) : list A :=
  let len := Z.of_nat (List.length a) in
  let from := if (first <? 0)%Z then Z.max (len + first) 0 else Z.min first len in
  let to := if (last <? 0)%Z then Z.max (len + last) 0 else Z.min last len in
  firstn (Z.to_nat (to - from)) (skipn (Z.to_nat from) a).

(** A stable sort by a comparator that answers a negative number, zero or
    a positive number, as [Array.prototype.sort] is. *)
Fixpoint insertSorted {A} (cmp : A -> A -> Z) (x : A) (sorted : list A) : list A :=
  match sorted with
  | [] => [x]
  | y :: rest =>
      if (cmp x y <=? 0)%Z then x :: sorted else y :: insertSorted cmp x rest
  end.

Definition sort {A} (cmp : A -> A -> Z) (a : list A) : list A :=
  fold_right (insertSorted cmp) [] a.

(** The rows are of any type [A]: [cells item] are the values of the
    properties of a row as [String(value)] writes them, and
    [less column a b] is [a[column] < b[column]]. *)
Definition filteredData {A} (cells : A -> list string) (props : Props) (st : State)
    (data : list A) : list A :=
  if searchable props && negb (Js.falsy (searchTerm st))
  then filter
         (fun item =>
            existsb
              (fun value => includes (toLowerCase (searchTerm st)) (toLowerCase value))
              (cells item))
         data
  else data.

Definition compareRows {A} (less : string -> A -> A -> bool) (column : string)
    (direction : Direction) (a b : A) : Z :=
  if less column a b then match direction with asc => (-1)%Z | desc => 1%Z end
  else if less column b a then match direction with asc => 1%Z | desc => (-1)%Z end
  else 0%Z.

Definition sortedData {A} (cells : A -> list string) (less : string -> A -> A -> bool)
    (props : Props) (st : State) (data : list A) : list A :=
  match sortColumn st with
  | Some column =>
      if sortable props
      then sort (compareRows less column (sortDirection st))
             (filteredData cells props st data)
      else filteredData cells props st data
  | None => filteredData cells props st data
  end.

(** [Math.ceil(length / itemsPerPage)]. *)
Definition totalPages (length : nat) (perPage : positive) : Z :=
  (Z.of_nat length + Z.pos perPage - 1) / Z.pos perPage.

(** The rows of the current page, given the sorted rows. *)
Definition pageOf {A} (props : Props) (st : State) (sorted : list A) : list A :=
  if paginated props
  then slice ((currentPage st - 1) * Z.pos (itemsPerPage st))
         (currentPage st * Z.pos (itemsPerPage st)) sorted
  else sorted.

Definition paginatedData {A} (cells : A -> list string) (less : string -> A -> A -> bool)
    (props : Props) (st : State) (data : list A) : list A :=
  pageOf props st (sortedData cells less props st data).

Definition flip (d : Direction) : Direction :=
  match d with asc => desc | desc => asc end.

Definition handleSort (props : Props) (columnKey : string) (st : State) : State :=
  if negb (sortable props) then st
  else
    match sortColumn st with
    | Some column =>
        if String.eqb column columnKey
        then mkState (currentPage st) (searchTerm st) (sortColumn st)
               (flip (sortDirection st)) (itemsPerPage st)
        else mkState (currentPage st) (searchTerm st) (Some columnKey) asc
               (itemsPerPage st)
    | None =>
        mkState (currentPage st) (searchTerm st) (Some columnKey) asc (itemsPerPage st)
    end.

(** [handlePageChange(page)], [total] being [totalPages]. *)
Definition handlePageChange (total page : Z) (st : State) : State :=
  mkState (Z.max 1 (Z.min page total)) (searchTerm st) (sortColumn st)
    (sortDirection st) (itemsPerPage st).

(** The sizes offered by the select of the table. *)
Inductive PageSizeChoice : Type := five | ten | twenty | fifty.

Definition choiceValue (c : PageSizeChoice) : string :=
  match c with
  | five => "5"
  | ten => "10"
  | twenty => "20"
  | fifty => "50"
  end.

(** [handleItemsPerPageChange(value)] for the values that the select
    offers, on which [parseInt] gives a positive integer. *)
Definition handleItemsPerPageChange (c : PageSizeChoice) (st : State) : State :=
  match Js.parseInt (choiceValue c) with
  | Js.Num (Z.pos size) =>
      mkState 1 (searchTerm st) (sortColumn st) (sortDirection st) size
  | _ => st
  end.

(** The page buttons: [Array.from({ length: Math.min(5, totalPages) }, ...)],
    a button being left out ([null]) when its page is past the last one. *)
Definition pageButtons (total current : Z) : list (option Z) :=
  map
    (fun i =>
       let page := (Z.max 1 (Z.min (total - 4) (current - 2)) + Z.of_nat i)%Z in
       if (page >? total)%Z then None else Some page)
    (seq 0 (Z.to_nat (Z.min 5 total))).

(** "Showing [from] to [to] of [length] entries". *)
Definition showingFrom (st : State) : Z :=
  (currentPage st - 1) * Z.pos (itemsPerPage st) + 1.

Definition showingTo (st : State) (length : nat) : Z :=
  Z.min (currentPage st * Z.pos (itemsPerPage st)) (Z.of_nat length).

(** Two rows given by the values of their properties, and the state after
    typing a term, for the examples. *)
Definition sampleRows : list (list string) :=
  [["Cash"; "100"; "0"]; ["Bank"; "0"; "100"]].

Definition sampleCells (row : list string) : list string := row.

Definition typed (term : string) : State :=
  mkState 1 term None asc 10.

End DataTable.

(** ** The loan entry form: derived figures *)

Module LoanForm.




End LoanForm.

(** ** Vocabulary for the pages of a table *)

Module Paging.

(** The page [p] of [rows], [perPage] rows to a page. *)
Definition page {A} (rows : list A) (perPage : positive) (p : Z) : list A :=
  DataTable.pageOf DataTable.defaultProps
    (DataTable.mkState p EmptyString None DataTable.asc perPage) rows.

(** The pages 1 to [count], one after the other. *)
Definition pagesUpTo {A} (rows : list A) (perPage : positive) (count : nat) : list A :=
  List.concat (map (fun p => page rows perPage (Z.of_nat p)) (seq 1 count)).

(** A state that neither searches nor sorts. *)
Definition plain (st : DataTable.State) : Prop :=
  DataTable.searchTerm st = EmptyString /\ DataTable.sortColumn st = None.

End Paging.

(** ** [server/routes.ts]: the login route *)

Module Login.

(** A row of the [users] table. *)
Record User : Type := mkUser {
  id : string;
  username : string;
  password : string;          (* the hash *)
  role : Routes.Role;
  name : string;
  email : option string;
  isActive : bool
}.

(** [const { password: _, ...userWithoutPassword } = user]. *)
Record UserWithoutPassword : Type := mkPublic {
  publicId : string;
  publicUsername : string;
  publicRole : Routes.Role;
  publicName : string;
  publicEmail : option string;
  publicIsActive : bool
}.

Definition withoutPassword (user : User) : UserWithoutPassword :=
  mkPublic (id user) (username user) (role user) (name user) (email user)
    (isActive user).

(** The body of the request: either property may be missing. *)
Record Body : Type := mkBody {
  bodyUsername : option string;
  bodyPassword : option string
}.

Inductive Json : Type :=
| MessageOnly (message : string)
| LoggedIn (message token : string) (user : UserWithoutPassword).

Record Response : Type := mkResponse {
  status : nat;
  json : Json
}.

(** [!x] for a property that may be missing. *)
Definition missing (x : option string) : bool :=
  match x with
  | Some s => Js.falsy s
  | None => true
  end.

(** [storage.getUserByUsername]: the first row with that name, if any. *)
Definition getUserByUsername (users : list User) (wanted : string) : option User :=
  find (fun u => String.eqb (username u) wanted) users.

(** The handler of [POST /api/auth/login]; [comparePassword] (bcrypt) and
    [generateToken] (jwt) belong to libraries and are taken as they are. *)
Definition login (comparePassword : string -> string -> bool)
    (generateToken : User -> string) (users : list User) (body : Body) : Response :=
  if missing (bodyUsername body) || missing (bodyPassword body)
  then mkResponse 400 (MessageOnly "Username and password are required")
  else
    match bodyUsername body, bodyPassword body with
    | Some wanted, Some given =>
        match getUserByUsername users wanted with
        | Some user =>
            if negb (isActive user)
            then mkResponse 401 (MessageOnly "Invalid credentials")
            else
              let isValidPassword := comparePassword given (password user) in
              if negb isValidPassword
              then mkResponse 401 (MessageOnly "Invalid credentials")
              else
                let token := generateToken user in
                mkResponse 200 (LoggedIn "Login successful" token (withoutPassword user))
        | None => mkResponse 401 (MessageOnly "Invalid credentials")
        end
    | _, _ => mkResponse 400 (MessageOnly "Username and password are required")
    end.

(** A table of two users and a stand-in for the hash comparison, for the
    examples. *)
Definition sampleUsers : list User :=
  [ mkUser "u1" "admin" "hash:secret" Routes.super_admin "Admin" None true;
    mkUser "u2" "clerk" "hash:ledger" Routes.user "Clerk" None false ].

Definition sampleCompare (given hash : string) : bool :=
  String.eqb ("hash:" ++ given) hash.

Definition sampleToken (user : User) : string := "token-of-" ++ id user.

End Login.

(** * Properties *)

(** ** Voucher balancer *)

Section Totals.
Import Schema.

Lemma reduce_debit (es : list VoucherEntry) (start : Q) :
  fold_left (fun sum entry => sum + debit entry) es start
  == start + SpecWords.sumDebit es.
Proof.
  revert start; induction es as [|e es IH]; intros start; simpl.
  - ring.
  - rewrite IH. ring.
Qed.

Lemma reduce_credit (es : list VoucherEntry) (start : Q) :
  fold_left (fun sum entry => sum + credit entry) es start
  == start + SpecWords.sumCredit es.
Proof.
  revert start; induction es as [|e es IH]; intros start; simpl.
  - ring.
  - rewrite IH. ring.
Qed.

Lemma totalDebit_sum (es : list VoucherEntry) :
  fst (VoucherPage.calculateTotals es) == SpecWords.sumDebit es.
Proof. simpl. rewrite reduce_debit. ring. Qed.

Lemma totalCredit_sum (es : list VoucherEntry) :
  snd (VoucherPage.calculateTotals es) == SpecWords.sumCredit es.
Proof. simpl. rewrite reduce_credit. ring. Qed.

Lemma gt0_iff (x : Q) : Utils.gt0 x = true <-> 0 < x.
Proof.
  unfold Utils.gt0. rewrite negb_true_iff. split.
  - intros H. apply Qnot_le_lt. intros Hle.
    apply Qle_bool_iff in Hle. congruence.
  - intros H. destruct (Qle_bool x 0) eqn:E; [|reflexivity].
    apply Qle_bool_iff in E. exfalso. exact (Qlt_not_le _ _ H E).
Qed.

Lemma isBalanced_spec (es : list VoucherEntry) :
  VoucherPage.isBalanced es = true <-> SpecWords.balanced es.
Proof.
  unfold VoucherPage.isBalanced, SpecWords.balanced.
  pose proof (totalDebit_sum es) as Hd. pose proof (totalCredit_sum es) as Hc.
  destruct (VoucherPage.calculateTotals es) as [td tc]. simpl in Hd, Hc.
  rewrite andb_true_iff, Qeq_bool_iff, gt0_iff, Hd, Hc. reflexivity.
Qed.

End Totals.


(** The two scenarios of the specification. *)
Example balanced_scenario :
  let es := [Schema.mkEntry "Cash" 100 0; Schema.mkEntry "Bank" 0 100] in
  VoucherPage.isBalanced es = true
  /\ VoucherPage.calculateTotals es = (0 + 100 + 0, 0 + 0 + 100)
  /\ fst (VoucherPage.calculateTotals es) == 100
  /\ snd (VoucherPage.calculateTotals es) == 100.
Proof. repeat split. Qed.

Example unbalanced_scenario :
  VoucherPage.isBalanced
    [Schema.mkEntry "Cash" 100 0; Schema.mkEntry "Bank" 0 50] = false.
Proof. reflexivity. Qed.

(** ** Loan calculator *)







(** ** Entries built by the voucher form *)

Section SingleSided.
Import Schema.

Import Fmt.

Lemma newEntryOf_sides (c : VoucherPage.CurrentEntry) :
  match VoucherPage.curType c with
  | VoucherPage.debitType =>
      debit (VoucherPage.newEntryOf c) = VoucherPage.curAmount c
      /\ credit (VoucherPage.newEntryOf c) = 0
  | VoucherPage.creditType =>
      debit (VoucherPage.newEntryOf c) = 0
      /\ credit (VoucherPage.newEntryOf c) = VoucherPage.curAmount c
  end.
Proof.
  unfold VoucherPage.newEntryOf. destruct (VoucherPage.curType c); simpl; auto.
Qed.

Lemma newEntryOf_singleSided (c : VoucherPage.CurrentEntry) :
  singleSided (VoucherPage.newEntryOf c).
Proof.
  pose proof (newEntryOf_sides c) as H. unfold singleSided.
  destruct (VoucherPage.curType c); destruct H as [Hd Hc]; auto.
Qed.

Lemma addEntry_entries (st : VoucherPage.State) :
  VoucherPage.entries (VoucherPage.addEntry st) =
  if Js.falsy (VoucherPage.curParticulars (VoucherPage.currentEntry st))
  then VoucherPage.entries st
  else (VoucherPage.entries st
          ++ [VoucherPage.newEntryOf (VoucherPage.currentEntry st)])%list.
Proof.
  unfold VoucherPage.addEntry.
  destruct (Js.falsy _); reflexivity.
Qed.

Lemma filterIndexNot_Forall {A} (P : A -> Prop) (index : nat) (a : list A) :
  Forall P a -> forall from, Forall P (VoucherPage.filterIndexNot index from a).
Proof.
  induction 1 as [|x a Hx Ha IH]; intros from; simpl.
  - constructor.
  - destruct (Nat.eqb from index); [apply IH|constructor; [exact Hx|apply IH]].
Qed.

Lemma addEntry_keeps (st : VoucherPage.State) :
  Forall Fmt.singleSided (VoucherPage.entries st) ->
  Forall Fmt.singleSided (VoucherPage.entries (VoucherPage.addEntry st)).
Proof.
  intros H. rewrite addEntry_entries.
  destruct (Js.falsy _); [exact H|].
  apply Forall_app. split; [exact H|].
  constructor; [apply newEntryOf_singleSided|constructor].
Qed.

Lemma removeEntry_keeps (index : nat) (st : VoucherPage.State) :
  Forall Fmt.singleSided (VoucherPage.entries st) ->
  Forall Fmt.singleSided (VoucherPage.entries (VoucherPage.removeEntry index st)).
Proof.
  intros H. unfold VoucherPage.removeEntry. simpl.
  apply filterIndexNot_Forall. exact H.
Qed.

Lemma applyOp_keeps (st : VoucherPage.State) (op : VoucherPage.EntryOp) :
  Forall Fmt.singleSided (VoucherPage.entries st) ->
  Forall Fmt.singleSided (VoucherPage.entries (VoucherPage.applyOp st op)).
Proof.
  intros H. destruct op as [c|index]; simpl.
  - apply addEntry_keeps. exact H.
  - apply removeEntry_keeps. exact H.
Qed.

Lemma run_keeps (ops : list VoucherPage.EntryOp) :
  forall st,
    Forall Fmt.singleSided (VoucherPage.entries st) ->
    Forall Fmt.singleSided (VoucherPage.entries (fold_left VoucherPage.applyOp ops st)).
Proof.
  induction ops as [|op ops IH]; intros st H; simpl.
  - exact H.
  - apply IH. apply applyOp_keeps. exact H.
Qed.

End SingleSided.

(** C10. With particulars filled in, [addEntry] appends one entry whose
    debit is the entered amount and whose credit is 0 when the selected type
    is debit, and whose debit is 0 and whose credit is the entered amount
    when the selected type is credit. Both [addEntry] and [removeEntry] keep
    every entry single-sided (debit = 0 or credit = 0), so every list built
    from the empty one by these two operations is single-sided. *)
Theorem C10_entries_single_sided :
  forall (st : VoucherPage.State) (index : nat)
         (f : VoucherPage.FormData) (ops : list VoucherPage.EntryOp),
    let c := VoucherPage.currentEntry st in
    (Js.falsy (VoucherPage.curParticulars c) = false ->
     exists e,
       VoucherPage.entries (VoucherPage.addEntry st)
       = (VoucherPage.entries st ++ [e])%list
       /\ Schema.particulars e = VoucherPage.curParticulars c
       /\ (VoucherPage.curType c = VoucherPage.debitType ->
           Schema.debit e = VoucherPage.curAmount c /\ Schema.credit e = 0)
       /\ (VoucherPage.curType c = VoucherPage.creditType ->
           Schema.debit e = 0 /\ Schema.credit e = VoucherPage.curAmount c))
    /\ (Forall Fmt.singleSided (VoucherPage.entries st) ->
        Forall Fmt.singleSided (VoucherPage.entries (VoucherPage.addEntry st))
        /\ Forall Fmt.singleSided (VoucherPage.entries (VoucherPage.removeEntry index st)))
    /\ Forall Fmt.singleSided
         (VoucherPage.entries
            (fold_left VoucherPage.applyOp ops (VoucherPage.initialState f))).
Proof.
  intros st index f ops c. split; [|split].
  - intros Hp. exists (VoucherPage.newEntryOf c). split.
    + rewrite addEntry_entries. fold c. rewrite Hp. reflexivity.
    + split; [reflexivity|].
      pose proof (newEntryOf_sides c) as H.
      split; intros Ht; rewrite Ht in H; exact H.
  - intros H. split; [apply addEntry_keeps|apply removeEntry_keeps]; exact H.
  - apply run_keeps. constructor.
Qed.

Lemma C10_entries_single_sided_witness :
  (exists e,
      VoucherPage.entries (VoucherPage.addEntry Samples.fillingForm)
      = [Schema.mkEntry "Cash" 100 0; e]
      /\ Schema.particulars e = "Bank"
      /\ Schema.debit e = 0 /\ Schema.credit e = 100)
  /\ (exists e,
        VoucherPage.entries (VoucherPage.addEntry Samples.fillingDebitForm) = [e]
        /\ Schema.particulars e = "Cash"
        /\ Schema.debit e = 100 /\ Schema.credit e = 0)
  /\ Forall Fmt.singleSided
       (VoucherPage.entries (VoucherPage.addEntry Samples.fillingForm))
  /\ Forall Fmt.singleSided
       (VoucherPage.entries (VoucherPage.removeEntry 0 Samples.fillingForm)).
Proof.
  destruct (C10_entries_single_sided Samples.fillingForm 0%nat Samples.paymentForm [])
    as (Hadd & Hkeep & _).
  destruct (C10_entries_single_sided Samples.fillingDebitForm 0%nat
              Samples.paymentForm [])
    as (Hadd' & _ & _).
  split; [|split].
  - destruct (Hadd eq_refl) as (e & He & Hp & _ & Hcredit).
    exists e. split; [exact He|]. split; [exact Hp|].
    apply Hcredit. reflexivity.
  - destruct (Hadd' eq_refl) as (e & He & Hp & Hdebit & _).
    exists e. split; [exact He|]. split; [exact Hp|].
    apply Hdebit. reflexivity.
  - apply Hkeep. constructor; [right; reflexivity|constructor].
Defined.

(** ** Decimal strings: [toString], [padStart], [parseInt] *)

Section Decimal.
Local Open Scope N_scope.

Lemma N_of_digitChar (d : N) : d < 10 -> N_of_ascii (Js.digitChar d) = 48 + d.
Proof.
  intros H. unfold Js.digitChar. apply N_ascii_embedding. lia.
Qed.

Lemma isDigit_digitChar (d : N) : d < 10 -> Fmt.isDigit (Js.digitChar d) = true.
Proof.
  intros H. unfold Fmt.isDigit. rewrite (N_of_digitChar d H).
  apply andb_true_iff. split; apply N.leb_le; lia.
Qed.

Lemma isDigit_bounds (c : ascii) :
  Fmt.isDigit c = true <-> 48 <= N_of_ascii c <= 57.
Proof.
  unfold Fmt.isDigit. rewrite andb_true_iff, !N.leb_le. reflexivity.
Qed.

Lemma enough_div10 (fuel : nat) (n : N) :
  Fmt.enough (S fuel) n -> 10 <= n -> Fmt.enough fuel (n / 10).
Proof.
  intros [_ Hlt] Hn. rewrite Nat2N.inj_succ, N.pow_succ_r' in Hlt. split.
  - intros ->. simpl in Hlt. lia.
  - apply N.Div0.div_lt_upper_bound. lia.
Qed.

Lemma decimal_fuel (f1 : nat) :
  forall f2 n, Fmt.enough f1 n -> Fmt.enough f2 n -> Js.decimal f1 n = Js.decimal f2 n.
Proof.
  induction f1 as [|f1 IH]; intros f2 n H1 H2.
  - destruct H1 as [H1 _]. congruence.
  - destruct f2 as [|f2]; [destruct H2 as [H2 _]; congruence|].
    simpl. destruct (N.ltb_spec n 10) as [Hn|Hn]; [reflexivity|].
    rewrite (IH f2 (n / 10)); auto using enough_div10.
Qed.

Lemma enough_log2 (n : N) : Fmt.enough (S (N.to_nat (N.log2 n))) n.
Proof.
  split; [discriminate|].
  rewrite Nat2N.inj_succ, N2Nat.id.
  destruct (N.eq_dec n 0) as [->|Hn]; [reflexivity|].
  apply N.log2_spec. lia.
Qed.

(** The defining equation of the decimal notation. *)
Lemma decimalN_eq (n : N) :
  Js.decimalN n =
  if n <? 10 then String (Js.digitChar n) EmptyString
  else (Js.decimalN (n / 10) ++ String (Js.digitChar (n mod 10)) EmptyString)%string.
Proof.
  unfold Js.decimalN at 1. simpl.
  destruct (N.ltb_spec n 10) as [Hn|Hn]; [reflexivity|].
  f_equal. apply decimal_fuel; [|apply enough_log2].
  apply enough_div10; [apply enough_log2|exact Hn].
Qed.

Lemma decimalN_small (n : N) :
  n < 10 -> Js.decimalN n = String (Js.digitChar n) EmptyString.
Proof.
  intros H. rewrite decimalN_eq. apply N.ltb_lt in H. rewrite H. reflexivity.
Qed.

Lemma decimalN_large (n : N) :
  10 <= n ->
  Js.decimalN n
  = (Js.decimalN (n / 10) ++ String (Js.digitChar (n mod 10)) EmptyString)%string.
Proof.
  intros H. rewrite decimalN_eq. apply N.ltb_ge in H. rewrite H. reflexivity.
Qed.

(** Induction along the digits of a number. *)
Lemma digits_ind (P : N -> Prop) :
  (forall n, n < 10 -> P n) ->
  (forall n, 10 <= n -> P (n / 10) -> P n) ->
  forall n, P n.
Proof.
  intros Hsmall Hlarge n.
  induction n as [n IH] using (well_founded_induction N.lt_wf_0).
  destruct (N.lt_ge_cases n 10) as [Hn|Hn]; [auto|].
  apply Hlarge; [exact Hn|]. apply IH.
  apply N.Div0.div_lt_upper_bound. lia.
Qed.

Lemma allDigits_app (s t : string) :
  Fmt.allDigits (s ++ t) = Fmt.allDigits s && Fmt.allDigits t.
Proof.
  induction s as [|c s IH]; simpl; [reflexivity|].
  rewrite IH, andb_assoc. reflexivity.
Qed.

Lemma valueFrom_app (s t : string) :
  forall acc, Fmt.valueFrom acc (s ++ t) = Fmt.valueFrom (Fmt.valueFrom acc s) t.
Proof.
  induction s as [|c s IH]; intros acc; simpl; [reflexivity|apply IH].
Qed.

Lemma length_app (s t : string) :
  String.length (s ++ t) = (String.length s + String.length t)%nat.
Proof.
  induction s as [|c s IH]; simpl; [reflexivity|]. rewrite IH. reflexivity.
Qed.

Lemma decimalN_allDigits (n : N) : Fmt.allDigits (Js.decimalN n) = true.
Proof.
  induction n as [n Hn|n Hn IH] using digits_ind.
  - rewrite decimalN_small by exact Hn. simpl.
    rewrite isDigit_digitChar by exact Hn. reflexivity.
  - rewrite decimalN_large by exact Hn.
    rewrite allDigits_app, IH. simpl.
    rewrite isDigit_digitChar; [reflexivity|].
    apply N.mod_lt. lia.
Qed.

Lemma decimalN_nonempty (n : N) : Js.falsy (Js.decimalN n) = false.
Proof.
  rewrite decimalN_eq. destruct (n <? 10); [reflexivity|].
  destruct (Js.decimalN (n / 10)); reflexivity.
Qed.

Lemma decimalN_isDecimal (n : N) : Fmt.isDecimal (Js.decimalN n) = true.
Proof.
  unfold Fmt.isDecimal. rewrite decimalN_nonempty, decimalN_allDigits. reflexivity.
Qed.

(** Reading back what [toString] wrote. *)
Lemma decimalValue_decimalN (n : N) : Fmt.decimalValue (Js.decimalN n) = n.
Proof.
  unfold Fmt.decimalValue.
  induction n as [n Hn|n Hn IH] using digits_ind.
  - rewrite decimalN_small by exact Hn. simpl.
    rewrite N_of_digitChar by exact Hn. lia.
  - rewrite decimalN_large by exact Hn.
    rewrite valueFrom_app, IH. simpl.
    rewrite N_of_digitChar by (apply N.mod_lt; lia).
    pose proof (N.div_mod n 10 ltac:(lia)) as H. clear IH.
    set (q := n / 10) in *. set (r := n mod 10) in *. clearbody q r. lia.
Qed.

Lemma valueFrom_zeros (k : nat) (s : string) :
  Fmt.valueFrom 0 (Fmt.zeros k ++ s) = Fmt.valueFrom 0 s.
Proof.
  induction k as [|k IH]; simpl; [reflexivity|exact IH].
Qed.

Lemma allDigits_zeros (k : nat) : Fmt.allDigits (Fmt.zeros k) = true.
Proof.
  induction k as [|k IH]; simpl; [reflexivity|exact IH].
Qed.


Lemma cycle_zero (k : nat) : Js.cycle k "0" "0" = Fmt.zeros k.
Proof.
  assert (H : forall k, Js.cycle k "0" "0" = Fmt.zeros k
                        /\ Js.cycle k EmptyString "0" = Fmt.zeros k).
  { clear k. induction k as [|k [IH1 IH2]]; simpl; [split; reflexivity|].
    rewrite IH2. split; reflexivity. }
  apply H.
Qed.

(** [padStart(3, '0')] pads with zeros up to the width and no further. *)
Lemma padStart_zeros (width : nat) (s : string) :
  Js.padStart width "0" s = (Fmt.zeros (width - String.length s) ++ s)%string.
Proof.
  unfold Js.padStart. destruct (Nat.leb_spec width (String.length s)) as [H|H].
  - replace (width - String.length s)%nat with O by lia. reflexivity.
  - rewrite cycle_zero. reflexivity.
Qed.


End Decimal.

Section Parsing.
Local Open Scope N_scope.

Lemma digitValue_digit (c : ascii) :
  Fmt.isDigit c = true -> Js.digitValue 10 c = Some (N_of_ascii c - 48).
Proof.
  intros H. unfold Js.digitValue. fold (Fmt.isDigit c). rewrite H.
  apply isDigit_bounds in H.
  destruct (N.ltb_spec (N_of_ascii c - 48) 10) as [_|Hge]; [reflexivity|lia].
Qed.

Lemma readDigits_digits (s : string) :
  forall seen acc,
    Fmt.allDigits s = true ->
    Js.readDigits 10 s seen acc =
    if seen || negb (Js.falsy s) then Some (Fmt.valueFrom acc s) else None.
Proof.
  induction s as [|c s IH]; intros seen acc H; simpl.
  - rewrite orb_false_r. reflexivity.
  - simpl in H. apply andb_true_iff in H. destruct H as [Hc Hs].
    rewrite (digitValue_digit c Hc), (IH true _ Hs), orb_true_r. reflexivity.
Qed.

(** On a string that starts with a digit and is not a [0x] literal,
    [parseInt] goes straight to reading decimal digits. *)
Lemma parseInt_starts_with_digit (s : string) :
  Fmt.isDecimal s = true ->
  Js.parseInt s =
  match Js.readDigits 10 s false 0 with
  | Some n => Js.Num (Z.of_N n)
  | None => Js.NaN
  end.
Proof.
  destruct s as [|c s]; [discriminate|].
  unfold Fmt.isDecimal. simpl. intros H.
  apply andb_true_iff in H. destruct H as [Hc Hs].
  bits c; try discriminate Hc; try reflexivity.
  destruct s as [|c2 s]; [reflexivity|].
  simpl in Hs. apply andb_true_iff in Hs. destruct Hs as [Hc2 Hs].
  bits c2; try discriminate Hc2; reflexivity.
Qed.

(** [parseInt] of a run of decimal digits is the number they write. *)
Lemma parseInt_decimal (s : string) :
  Fmt.isDecimal s = true ->
  Js.parseInt s = Js.Num (Z.of_N (Fmt.decimalValue s)).
Proof.
  intros H. rewrite (parseInt_starts_with_digit s H).
  unfold Fmt.isDecimal in H. apply andb_true_iff in H. destruct H as [Hne Hs].
  rewrite (readDigits_digits s false 0 Hs), Hne. reflexivity.
Qed.

Lemma parseInt_decimalN (n : N) : Js.parseInt (Js.decimalN n) = Js.Num (Z.of_N n).
Proof.
  rewrite parseInt_decimal by apply decimalN_isDecimal.
  rewrite decimalValue_decimalN. reflexivity.
Qed.

Lemma isDecimal_padded (k : nat) (s : string) :
  Fmt.isDecimal s = true -> Fmt.isDecimal (Fmt.zeros k ++ s) = true.
Proof.
  unfold Fmt.isDecimal. intros H.
  apply andb_true_iff in H. destruct H as [Hne Hs].
  rewrite allDigits_app, allDigits_zeros, Hs.
  destruct k; simpl; [rewrite Hne|]; reflexivity.
Qed.


Lemma digit_is_not_underscore (c : ascii) :
  Fmt.isDigit c = true -> Ascii.eqb c "_" = false.
Proof.
  intros H. destruct (Ascii.eqb_spec c "_") as [->|_]; [discriminate H|reflexivity].
Qed.

Lemma split_digits (s : string) :
  Fmt.allDigits s = true -> Js.split "_" s = [s].
Proof.
  induction s as [|c s IH]; simpl; intros H; [reflexivity|].
  apply andb_true_iff in H. destruct H as [Hc Hs].
  rewrite (digit_is_not_underscore c Hc), (IH Hs). reflexivity.
Qed.

(** The piece that [generateMemberNumber] parses. *)
Lemma split_MEM (ds : string) :
  Fmt.allDigits ds = true ->
  nth_error (Js.split "_" ("MEM_" ++ ds)) 1 = Some ds.
Proof.
  intros H. simpl. rewrite (split_digits ds H). reflexivity.
Qed.

Lemma toString_nonneg (n : N) : Js.toString (Js.Num (Z.of_N n)) = Js.decimalN n.
Proof.
  unfold Js.toString.
  destruct (Z.ltb_spec (Z.of_N n) 0) as [H|_]; [lia|].
  rewrite N2Z.id. reflexivity.
Qed.





Lemma append_assoc (a b c : string) : ((a ++ b) ++ c = a ++ (b ++ c))%string.
Proof.
  induction a as [|x a IH]; simpl; [reflexivity|]. rewrite IH. reflexivity.
Qed.

End Parsing.

(** ** Sequence generator *)

Section Generators.
Import Schema Db.

(** What the three generators compute, as functions of the last
    identifier fetched. *)
Lemma generateMemberNumber_run (w : World) :
  Storage.generateMemberNumber w =
  (Returned
     match Fmt.lastMemNo w with
     | None => "MEM_001"
     | Some l =>
         "MEM_" ++ Js.padStart 3 "0"
           (Js.toString (Js.plus (Js.parseIntAt (nth_error (Js.split "_" l) 1)) 1))
     end,
   issue SelectLastMemNo w).
Proof.
  unfold Storage.generateMemberNumber, bind, selectLastMemNo, Fmt.lastMemNo.
  destruct (orderByDescLimit1 _); reflexivity.
Qed.

Lemma generateLoanNumber_run (w : World) :
  Storage.generateLoanNumber w =
  (Returned
     match Fmt.lastLoanNo w with
     | None => "L" ++ Storage.yearSuffixOf (fullYear w) ++ "001"
     | Some l =>
         "L" ++ Storage.yearSuffixOf (fullYear w)
         ++ Js.padStart 3 "0" (Js.toString (Js.plus (Js.parseInt (Js.slice 3 l)) 1))
     end,
   issue SelectLastLoanNo w).
Proof.
  unfold Storage.generateLoanNumber, bind, getFullYear, selectLastLoanNo,
    Fmt.lastLoanNo.
  destruct (orderByDescLimit1 _); reflexivity.
Qed.

Lemma generateVoucherNumber_run (t : VoucherType) (w : World) :
  Storage.generateVoucherNumber (voucherTypeName t) w =
  (Returned
     (let typePrefix := Js.toUpperCase (Js.charAt0 (voucherTypeName t)) in
      match Fmt.lastVoucherNo t w with
      | None => typePrefix ++ Storage.yearSuffixOf (fullYear w) ++ "001"
      | Some l =>
          typePrefix ++ Storage.yearSuffixOf (fullYear w)
          ++ Js.padStart 3 "0" (Js.toString (Js.plus (Js.parseInt (Js.slice 3 l)) 1))
      end),
   issue (SelectLastVoucherNo (voucherTypeName t)) w).
Proof.
  unfold Storage.generateVoucherNumber, bind, getFullYear, selectLastVoucherNo,
    Fmt.lastVoucherNo.
  destruct (orderByDescLimit1 _); reflexivity.
Qed.

(** The padded successor of a number read from decimal digits. *)
Lemma next_of_decimal (ds : string) :
  Fmt.isDecimal ds = true ->
  Js.padStart 3 "0" (Js.toString (Js.plus (Js.parseInt ds) 1))
  = Js.padStart 3 "0" (Js.decimalN (Fmt.decimalValue ds + 1)).
Proof.
  intros H. rewrite (parseInt_decimal ds H). simpl Js.plus.
  replace (Z.of_N (Fmt.decimalValue ds) + 1)%Z
    with (Z.of_N (Fmt.decimalValue ds + 1)) by lia.
  rewrite toString_nonneg. reflexivity.
Qed.

Lemma padStart_padded (n : N) :
  Js.padStart 3 "0" (Js.decimalN n) = Fmt.padded 3 n.
Proof. unfold Fmt.padded. apply padStart_zeros. Qed.



Lemma isDecimal_padded3 (n : N) : Fmt.isDecimal (Fmt.padded 3 n) = true.
Proof. unfold Fmt.padded. apply isDecimal_padded, decimalN_isDecimal. Qed.

Lemma decimalValue_padded3 (n : N) : Fmt.decimalValue (Fmt.padded 3 n) = n.
Proof.
  unfold Fmt.padded, Fmt.decimalValue. rewrite valueFrom_zeros.
  apply decimalValue_decimalN.
Qed.

(** The member number that follows [MEM_] and decimal digits. *)
Lemma generateMemberNumber_next (w : World) (ds : string) :
  Fmt.lastMemNo w = Some ("MEM_" ++ ds) ->
  Fmt.isDecimal ds = true ->
  fst (Storage.generateMemberNumber w)
  = Returned ("MEM_" ++ Fmt.padded 3 (Fmt.decimalValue ds + 1)).
Proof.
  intros Hlast Hds. rewrite generateMemberNumber_run. fst_of_pair. rewrite Hlast.
  unfold Fmt.isDecimal in Hds. apply andb_true_iff in Hds as Hparts.
  destruct Hparts as [_ Hall].
  rewrite (split_MEM ds Hall). simpl Js.parseIntAt.
  rewrite (next_of_decimal ds Hds), padStart_padded. reflexivity.
Qed.

Lemma orderByDescLimit1_none (keys : list string) :
  orderByDescLimit1 keys = None <-> keys = [].
Proof.
  split; [|intros ->; reflexivity].
  destruct keys as [|k keys]; [reflexivity|]. unfold orderByDescLimit1. simpl.
  assert (H : forall ks b, fold_left greater ks (Some b) <> None).
  { induction ks as [|x ks IH]; intros b; simpl; [discriminate|].
    destruct (String.ltb b x); apply IH. }
  intros Hn. destruct (H keys k Hn).
Qed.

End Generators.






(** ** Descending order of identifier strings *)

Section StringOrder.
Import Db.

Lemma ltb_lts (a b : string) : String.ltb a b = true <-> OrderedTypeEx.String_as_OT.lt a b.
Proof.
  unfold String.ltb. rewrite <- OrderedTypeEx.String_as_OT.cmp_lt.
  unfold OrderedTypeEx.String_as_OT.cmp.
  destruct (String.compare a b); split; intros H; try discriminate; reflexivity.
Qed.

Lemma leb_lts (a b : string) : String.leb a b = true <-> a = b \/ OrderedTypeEx.String_as_OT.lt a b.
Proof.
  unfold String.leb. rewrite <- OrderedTypeEx.String_as_OT.cmp_lt.
  unfold OrderedTypeEx.String_as_OT.cmp.
  destruct (String.compare a b) eqn:E; split; intros H; try reflexivity.
  - left. apply OrderedTypeEx.String_as_OT.cmp_eq. exact E.
  - right. reflexivity.
  - discriminate H.
  - destruct H as [->|H]; [|discriminate H].
    assert (Hrefl : String.compare b b = Eq)
      by (apply OrderedTypeEx.String_as_OT.cmp_eq; reflexivity).
    congruence.
Qed.

Lemma ltb_leb (a b : string) : String.ltb a b = true -> String.leb a b = true.
Proof. rewrite ltb_lts, leb_lts. auto. Qed.

Lemma not_ltb_leb (a b : string) : String.ltb a b = false -> String.leb b a = true.
Proof.
  unfold String.ltb, String.leb. rewrite (String.compare_antisym a b).
  destruct (String.compare b a); simpl; intros H; try reflexivity; discriminate H.
Qed.

Lemma leb_trans (a b c : string) :
  String.leb a b = true -> String.leb b c = true -> String.leb a c = true.
Proof.
  rewrite !leb_lts. intros [->|Hab] [->|Hbc]; auto.
  right. exact (OrderedTypeEx.String_as_OT.lt_trans _ _ _ Hab Hbc).
Qed.

Lemma leb_ltb_trans (a b c : string) :
  String.leb a b = true -> String.ltb b c = true -> String.ltb a c = true.
Proof.
  rewrite leb_lts, !ltb_lts. intros [->|Hab] Hbc; [exact Hbc|].
  exact (OrderedTypeEx.String_as_OT.lt_trans _ _ _ Hab Hbc).
Qed.

Lemma leb_refl (a : string) : String.leb a a = true.
Proof. apply leb_lts. left. reflexivity. Qed.

(** Scanning the keys keeps a key that is above the start and above every
    key seen. *)
Lemma fold_greater_max (keys : list string) :
  forall start,
  exists best,
    fold_left greater keys (Some start) = Some best
    /\ (best = start \/ In best keys)
    /\ String.leb start best = true
    /\ (forall k, In k keys -> String.leb k best = true).
Proof.
  induction keys as [|k keys IH]; intros start; simpl.
  - exists start. split; [reflexivity|]. split; [left; reflexivity|].
    split; [apply leb_refl|intros k []].
  - destruct (String.ltb start k) eqn:E.
    + destruct (IH k) as (best & Hfold & Hin & Hk & Hall).
      exists best. split; [exact Hfold|]. split; [|split].
      * right. destruct Hin as [->|Hin]; auto.
      * apply (leb_trans _ k); [apply ltb_leb, E|exact Hk].
      * intros k' [<-|Hk']; auto.
    + destruct (IH start) as (best & Hfold & Hin & Hs & Hall).
      exists best. split; [exact Hfold|]. split; [|split].
      * destruct Hin as [->|Hin]; auto.
      * exact Hs.
      * intros k' [<-|Hk']; auto.
        apply (leb_trans _ start); [apply not_ltb_leb, E|exact Hs].
Qed.

(** [ORDER BY key DESC LIMIT 1] returns a key of the table that no key of
    the table exceeds. *)
Lemma orderByDescLimit1_max (keys : list string) (best : string) :
  orderByDescLimit1 keys = Some best ->
  In best keys /\ forall k, In k keys -> String.leb k best = true.
Proof.
  unfold orderByDescLimit1. destruct keys as [|k0 keys]; [discriminate|].
  simpl. destruct (fold_greater_max keys k0) as (b & Hfold & Hin & Hk0 & Hall).
  rewrite Hfold. intros H. injection H as <-. split.
  - destruct Hin as [->|Hin]; auto.
  - intros k [<-|Hk]; auto.
Qed.

Lemma orderByDescLimit1_some (keys : list string) :
  keys <> [] -> exists best, orderByDescLimit1 keys = Some best.
Proof.
  intros Hne. destruct (orderByDescLimit1 keys) as [best|] eqn:E; [eauto|].
  apply orderByDescLimit1_none in E. contradiction.
Qed.

End StringOrder.

(** ** Malformed last identifiers *)




(** ** Identifiers past the third digit *)

Section BelowOverflow.
Import Schema Db.

(** Three-digit member numbers are in the order of their numbers. *)
Lemma member_numbers_adjacent (n : N) :
  (n < 999)%N ->
  String.ltb ("MEM_" ++ Fmt.padded 3 n) ("MEM_" ++ Fmt.padded 3 (n + 1)) = true.
Proof.
  intros Hn.
  assert (Hall :
    forallb
      (fun i =>
         String.ltb ("MEM_" ++ Fmt.padded 3 (N.of_nat i))
           ("MEM_" ++ Fmt.padded 3 (N.of_nat i + 1)))
      (seq 0 999) = true) by (vm_compute; reflexivity).
  rewrite forallb_forall in Hall.
  specialize (Hall (N.to_nat n)). rewrite N2Nat.id in Hall.
  apply Hall, in_seq. lia.
Qed.

(** As long as every member number of the table is [MEM_] and a number
    below 999 in three digits, the generated member number is above every
    member number of the table. *)
Lemma member_numbers_increase_below_999 (w : World) :
  members (tables w) <> [] ->
  (forall k, In k (map memNo (members (tables w))) ->
             exists n, (n < 999)%N /\ k = "MEM_" ++ Fmt.padded 3 n) ->
  exists no,
    fst (Storage.generateMemberNumber w) = Returned no
    /\ forall k, In k (map memNo (members (tables w))) -> String.ltb k no = true.
Proof.
  intros Hne Hform.
  destruct (orderByDescLimit1_some (map memNo (members (tables w)))) as [best Hbest].
  { intros Hmap. apply map_eq_nil in Hmap. contradiction. }
  destruct (orderByDescLimit1_max _ _ Hbest) as [Hin Hmax].
  destruct (Hform best Hin) as (n & Hn & ->).
  exists ("MEM_" ++ Fmt.padded 3 (n + 1)). split.
  - rewrite (generateMemberNumber_next w (Fmt.padded 3 n) Hbest (isDecimal_padded3 n)).
    rewrite decimalValue_padded3. reflexivity.
  - intros k Hk. apply (leb_ltb_trans _ ("MEM_" ++ Fmt.padded 3 n)).
    + apply Hmax, Hk.
    + apply member_numbers_adjacent, Hn.
Qed.

End BelowOverflow.

(** C4, the code at the failing input. A thousand members are created one
    after the other without identifier, from an empty table; they receive
    [MEM_001] to [MEM_1000]. The greatest member number in descending order
    of strings is then [MEM_999], so the generator returns [MEM_1000] once
    more: an identifier that is already in the table and not above it, and
    the next creation is refused by the unique constraint. *)
Theorem C4_member_number_repeats_after_1000 :
  let w := Samples.enrol 1000 (Db.startWorld 2024) in
  List.length (Db.members (Db.tables w)) = 1000%nat
  /\ nth_error (map Schema.memNo (Db.members (Db.tables w))) 998 = Some "MEM_999"
  /\ nth_error (map Schema.memNo (Db.members (Db.tables w))) 999 = Some "MEM_1000"
  /\ Fmt.lastMemNo w = Some "MEM_999"
  /\ fst (Storage.generateMemberNumber w) = Db.Returned "MEM_1000"
  /\ String.ltb "MEM_1000" "MEM_999" = true
  /\ fst (Storage.createMember Samples.newMember w)
     = Db.Thrown (Db.UniqueViolation "mem_no" "MEM_1000").
Proof. vm_compute. repeat split. Qed.

(** The same on a small table. *)
Example member_number_repeats :
  fst (Storage.generateMemberNumber (Samples.membersWorld 2024 ["MEM_999"; "MEM_1000"]))
  = Db.Returned "MEM_1000".
Proof. reflexivity. Qed.

Example loan_number_repeats :
  fst (Storage.generateLoanNumber (Samples.loansWorld 2024 ["L24999"; "L241000"]))
  = Db.Returned "L241000".
Proof. reflexivity. Qed.

(** ** The create operations *)

Section Create.
Import Schema Db.

Lemma skipn_own_length {A} (a b : list A) : skipn (List.length a) (a ++ b) = b.
Proof. induction a as [|x a IH]; simpl; [reflexivity|exact IH]. Qed.

(** What an insert does: one statement, and a new last row unless the
    identifier is taken. *)
Lemma insertIntoMembers_run (row : InsertMember) (w : World) :
  insertIntoMembers row w =
  if taken (memNo row) (map memNo (members (tables w)))
  then (Thrown (UniqueViolation "mem_no" (memNo row)),
        issue (InsertIntoMembers row) w)
  else (Returned row,
        mkWorld
          (mkTables (members (tables w) ++ [row]) (loans (tables w))
             (vouchers (tables w)))
          (fullYear w) (trace w ++ [InsertIntoMembers row])).
Proof. unfold insertIntoMembers. destruct (taken _ _); reflexivity. Qed.

Lemma insertIntoLoans_run (row : InsertLoan) (w : World) :
  insertIntoLoans row w =
  if taken (loanNo row) (map loanNo (loans (tables w)))
  then (Thrown (UniqueViolation "loan_no" (loanNo row)),
        issue (InsertIntoLoans row) w)
  else (Returned row,
        mkWorld
          (mkTables (members (tables w)) (loans (tables w) ++ [row])
             (vouchers (tables w)))
          (fullYear w) (trace w ++ [InsertIntoLoans row])).
Proof. unfold insertIntoLoans. destruct (taken _ _); reflexivity. Qed.

Lemma insertIntoVouchers_run (row : InsertVoucher) (w : World) :
  insertIntoVouchers row w =
  if taken (voucherNo row) (map voucherNo (vouchers (tables w)))
  then (Thrown (UniqueViolation "voucher_no" (voucherNo row)),
        issue (InsertIntoVouchers row) w)
  else (Returned row,
        mkWorld
          (mkTables (members (tables w)) (loans (tables w))
             (vouchers (tables w) ++ [row]))
          (fullYear w) (trace w ++ [InsertIntoVouchers row])).
Proof. unfold insertIntoVouchers. destruct (taken _ _); reflexivity. Qed.

Lemma createMember_explicit (m : InsertMember) (w : World) :
  Js.falsy (memNo m) = false ->
  Storage.createMember m w = insertIntoMembers m w.
Proof. intros H. unfold Storage.createMember, bind. rewrite H. reflexivity. Qed.

Lemma createMember_generated (m : InsertMember) (w w1 : World) (no : string) :
  Js.falsy (memNo m) = true ->
  Storage.generateMemberNumber w = (Returned no, w1) ->
  Storage.createMember m w = insertIntoMembers (mkMember no (memberFields m)) w1.
Proof.
  intros H Hgen. unfold Storage.createMember, bind. rewrite H, Hgen. reflexivity.
Qed.

Lemma createLoan_explicit (l : InsertLoan) (w : World) :
  Js.falsy (loanNo l) = false ->
  Storage.createLoan l w = insertIntoLoans l w.
Proof. intros H. unfold Storage.createLoan, bind. rewrite H. reflexivity. Qed.

Lemma createLoan_generated (l : InsertLoan) (w w1 : World) (no : string) :
  Js.falsy (loanNo l) = true ->
  Storage.generateLoanNumber w = (Returned no, w1) ->
  Storage.createLoan l w = insertIntoLoans (mkLoan no (loanFields l)) w1.
Proof.
  intros H Hgen. unfold Storage.createLoan, bind. rewrite H, Hgen. reflexivity.
Qed.

Lemma createVoucher_explicit (v : InsertVoucher) (w : World) :
  Js.falsy (voucherNo v) = false ->
  Storage.createVoucher v w = insertIntoVouchers v w.
Proof. intros H. unfold Storage.createVoucher, bind. rewrite H. reflexivity. Qed.

Lemma createVoucher_generated (v : InsertVoucher) (w w1 : World) (no : string) :
  Js.falsy (voucherNo v) = true ->
  Storage.generateVoucherNumber (voucherTypeName (voucherType v)) w
  = (Returned no, w1) ->
  Storage.createVoucher v w
  = insertIntoVouchers
      (mkVoucher no (voucherType v) (entries v) (voucherFields v)) w1.
Proof.
  intros H Hgen. unfold Storage.createVoucher, bind. rewrite H, Hgen. reflexivity.
Qed.

(** Inserting [row] after the statements [before]. *)
Lemma insertsMember_after (before : list Op) (row : InsertMember) (w w1 : World) :
  tables w1 = tables w -> trace w1 = (trace w ++ before)%list ->
  Fmt.insertsMember before row w (insertIntoMembers row w1).
Proof.
  intros Ht Htr. unfold Fmt.insertsMember.
  rewrite insertIntoMembers_run, Ht.
  destruct (taken _ _); simpl; unfold Fmt.issued; simpl; rewrite Htr, <- app_assoc;
    rewrite skipn_own_length; repeat split; try discriminate; auto.
Qed.

Lemma insertsLoan_after (before : list Op) (row : InsertLoan) (w w1 : World) :
  tables w1 = tables w -> trace w1 = (trace w ++ before)%list ->
  Fmt.insertsLoan before row w (insertIntoLoans row w1).
Proof.
  intros Ht Htr. unfold Fmt.insertsLoan.
  rewrite insertIntoLoans_run, Ht.
  destruct (taken _ _); simpl; unfold Fmt.issued; simpl; rewrite Htr, <- app_assoc;
    rewrite skipn_own_length; repeat split; try discriminate; auto.
Qed.

Lemma insertsVoucher_after (before : list Op) (row : InsertVoucher) (w w1 : World) :
  tables w1 = tables w -> trace w1 = (trace w ++ before)%list ->
  Fmt.insertsVoucher before row w (insertIntoVouchers row w1).
Proof.
  intros Ht Htr. unfold Fmt.insertsVoucher.
  rewrite insertIntoVouchers_run, Ht.
  destruct (taken _ _); simpl; unfold Fmt.issued; simpl; rewrite Htr, <- app_assoc;
    rewrite skipn_own_length; repeat split; try discriminate; auto.
Qed.

End Create.

(** C9. A create operation given an identifier issues one statement, the
    insert of the record as supplied: no generator runs, and the record is
    stored unchanged (unless the unique constraint refuses the identifier).
    Given no identifier (the empty string), it runs the generator of its
    table once, one query for the last identifier, and then inserts the
    record with the generated identifier and all other fields as
    supplied. *)
Theorem C9_create_identifier_and_frame :
  forall (w : Db.World) (m : Schema.InsertMember) (l : Schema.InsertLoan)
         (v : Schema.InsertVoucher),
    ((Js.falsy (Schema.memNo m) = false ->
      Fmt.insertsMember [] m w (Storage.createMember m w))
     /\ (Js.falsy (Schema.memNo m) = true ->
         exists no,
           fst (Storage.generateMemberNumber w) = Db.Returned no
           /\ Fmt.insertsMember [Db.SelectLastMemNo]
                (Schema.mkMember no (Schema.memberFields m)) w
                (Storage.createMember m w)))
    /\ ((Js.falsy (Schema.loanNo l) = false ->
         Fmt.insertsLoan [] l w (Storage.createLoan l w))
        /\ (Js.falsy (Schema.loanNo l) = true ->
            exists no,
              fst (Storage.generateLoanNumber w) = Db.Returned no
              /\ Fmt.insertsLoan [Db.SelectLastLoanNo]
                   (Schema.mkLoan no (Schema.loanFields l)) w
                   (Storage.createLoan l w)))
    /\ ((Js.falsy (Schema.voucherNo v) = false ->
         Fmt.insertsVoucher [] v w (Storage.createVoucher v w))
        /\ (Js.falsy (Schema.voucherNo v) = true ->
            exists no,
              fst (Storage.generateVoucherNumber
                     (Schema.voucherTypeName (Schema.voucherType v)) w)
              = Db.Returned no
              /\ Fmt.insertsVoucher
                   [Db.SelectLastVoucherNo (Schema.voucherTypeName (Schema.voucherType v))]
                   (Schema.mkVoucher no (Schema.voucherType v) (Schema.entries v)
                      (Schema.voucherFields v))
                   w (Storage.createVoucher v w))).
Proof.
  intros w m l v. split; [|split]; split; intros H.
  - rewrite (createMember_explicit m w H).
    apply insertsMember_after; [reflexivity|symmetry; apply app_nil_r].
  - pose proof (generateMemberNumber_run w) as Hgen. eexists.
    rewrite Hgen. split; [reflexivity|].
    rewrite (createMember_generated m w _ _ H Hgen).
    apply insertsMember_after; reflexivity.
  - rewrite (createLoan_explicit l w H).
    apply insertsLoan_after; [reflexivity|symmetry; apply app_nil_r].
  - pose proof (generateLoanNumber_run w) as Hgen. eexists.
    rewrite Hgen. split; [reflexivity|].
    rewrite (createLoan_generated l w _ _ H Hgen).
    apply insertsLoan_after; reflexivity.
  - rewrite (createVoucher_explicit v w H).
    apply insertsVoucher_after; [reflexivity|symmetry; apply app_nil_r].
  - pose proof (generateVoucherNumber_run (Schema.voucherType v) w) as Hgen. eexists.
    rewrite Hgen. split; [reflexivity|].
    rewrite (createVoucher_generated v w _ _ H Hgen).
    apply insertsVoucher_after; reflexivity.
Qed.

Lemma C9_create_identifier_and_frame_witness :
  (fst (Storage.createMember Samples.namedMember Samples.smallWorld)
   = Db.Returned Samples.namedMember
   /\ fst (Storage.createLoan Samples.namedLoan Samples.smallWorld)
      = Db.Returned Samples.namedLoan
   /\ fst (Storage.createVoucher Samples.namedVoucher Samples.smallWorld)
      = Db.Returned Samples.namedVoucher)
  /\ (Fmt.issued Samples.smallWorld
        (snd (Storage.createMember Samples.newMember Samples.smallWorld))
      = [Db.SelectLastMemNo;
         Db.InsertIntoMembers (Schema.mkMember "MEM_002" [("name", "Asha")])]
      /\ Fmt.issued Samples.smallWorld
           (snd (Storage.createLoan Samples.newLoan Samples.smallWorld))
         = [Db.SelectLastLoanNo;
            Db.InsertIntoLoans (Schema.mkLoan "L24002" [("edpNo", "EDP000123")])]
      /\ Fmt.issued Samples.smallWorld
           (snd (Storage.createVoucher (Samples.newVoucher Schema.journal [])
                   Samples.smallWorld))
         = [Db.SelectLastVoucherNo "journal";
            Db.InsertIntoVouchers
              (Schema.mkVoucher "J24002" Schema.journal [] [("narration", "rent")])]).
Proof.
  split.
  - destruct (C9_create_identifier_and_frame Samples.smallWorld Samples.namedMember
                Samples.namedLoan Samples.namedVoucher)
      as ((Hm & _) & (Hl & _) & (Hv & _)).
    split; [|split].
    + apply (proj1 (proj2 (Hm eq_refl))). reflexivity.
    + apply (proj1 (proj2 (Hl eq_refl))). reflexivity.
    + apply (proj1 (proj2 (Hv eq_refl))). reflexivity.
  - destruct (C9_create_identifier_and_frame Samples.smallWorld Samples.newMember
                Samples.newLoan (Samples.newVoucher Schema.journal []))
      as ((_ & Hm) & (_ & Hl) & (_ & Hv)).
    split; [|split].
    + destruct (Hm eq_refl) as (no & Hno & Hrun & _).
      injection Hno as <-. exact Hrun.
    + destruct (Hl eq_refl) as (no & Hno & Hrun & _).
      injection Hno as <-. exact Hrun.
    + destruct (Hv eq_refl) as (no & Hno & Hrun & _).
      injection Hno as <-. exact Hrun.
Defined.

(** ** The create-voucher route and the form in front of it *)

Section Route.
Import Schema Db Routes.

(** Requests that do not pass the middleware are answered 401 or 403 and
    touch nothing. *)
Lemma route_rejects_credentials (req : Request) (w : World) :
  Fmt.admitted (credentials req) = false ->
  exists resp,
    postApiVouchers req w = (Returned resp, w)
    /\ (status resp = 401%nat \/ status resp = 403%nat).
Proof.
  unfold postApiVouchers, authenticateToken, requireRole, ret.
  destruct (credentials req) as [| | |[| | |]]; simpl; intros H;
    try discriminate H; eexists; split; try reflexivity; auto.
Qed.

Lemma route_admits (req : Request) (w : World) :
  Fmt.admitted (credentials req) = true ->
  postApiVouchers req w = createVoucherHandler req w.
Proof.
  unfold postApiVouchers, authenticateToken, requireRole.
  destruct (credentials req) as [| | |[| | |]]; simpl; intros H;
    try discriminate H; reflexivity.
Qed.

(** The schema looks at the three required properties and at nothing
    else. *)
Lemma parse_run (b : VoucherBody) (w : World) :
  insertVoucherSchema_parse b w =
  match bodyVoucherNo b, bodyVoucherType b, bodyVoucherDate b with
  | Some no, Some type, Some date =>
      match voucherTypeOfName type with
      | Some t =>
          (Returned (mkVoucher no t (bodyEntries b)
                       (("voucherDate", date) :: bodyFields b)), w)
      | None => (Thrown ZodError, w)
      end
  | _, _, _ => (Thrown ZodError, w)
  end.
Proof.
  unfold insertVoucherSchema_parse.
  destruct (bodyVoucherNo b), (bodyVoucherType b), (bodyVoucherDate b);
    try reflexivity.
  destruct (voucherTypeOfName _); reflexivity.
Qed.

Lemma parse_keeps_entries (b : VoucherBody) (w w' : World) (v : InsertVoucher) :
  insertVoucherSchema_parse b w = (Returned v, w') ->
  w' = w /\ entries v = bodyEntries b.
Proof.
  rewrite parse_run.
  destruct (bodyVoucherNo b), (bodyVoucherType b), (bodyVoucherDate b);
    try discriminate.
  destruct (voucherTypeOfName _); [|discriminate].
  intros H. injection H as <- <-. split; reflexivity.
Qed.

Lemma handler_after_parse (req : Request) (w : World) (v : InsertVoucher) :
  insertVoucherSchema_parse (body req) w = (Returned v, w) ->
  createVoucherHandler req w =
  match Storage.createVoucher v w with
  | (Returned voucher, w') => (Returned (mkResponse 201 (VoucherJson voucher)), w')
  | (Thrown _, w') =>
      (Returned (mkResponse 500 (Message "Failed to create voucher")), w')
  end.
Proof.
  intros Hp. unfold createVoucherHandler, tryCatch, bind. rewrite Hp.
  destruct (Storage.createVoucher v w) as [[voucher|e] w']; reflexivity.
Qed.

Lemma handler_parse_failure (req : Request) (w : World) (e : Error) :
  insertVoucherSchema_parse (body req) w = (Thrown e, w) ->
  createVoucherHandler req w =
  (Returned (mkResponse 500 (Message "Failed to create voucher")), w).
Proof.
  intros Hp. unfold createVoucherHandler, tryCatch, bind. rewrite Hp. reflexivity.
Qed.

(** The record that [createVoucher] inserts for [v]. *)
Lemma createVoucher_inserts (v : InsertVoucher) (w : World) :
  exists before row,
    Fmt.insertsVoucher before row w (Storage.createVoucher v w)
    /\ voucherType row = voucherType v
    /\ entries row = entries v
    /\ voucherFields row = voucherFields v
    /\ (Js.falsy (voucherNo v) = false -> row = v).
Proof.
  destruct (Js.falsy (voucherNo v)) eqn:H.
  - pose proof (generateVoucherNumber_run (voucherType v) w) as Hgen.
    eexists. eexists. split.
    + rewrite (createVoucher_generated v w _ _ H Hgen).
      apply insertsVoucher_after; reflexivity.
    + repeat split. discriminate.
  - exists [], v. split.
    + rewrite (createVoucher_explicit v w H).
      apply insertsVoucher_after; [reflexivity|symmetry; apply app_nil_r].
    + repeat split.
Qed.



End Route.




(** * Further properties *)

(** ** Voucher numbers *)

Section VoucherNumbers.
Import Schema Db.

Lemma typeInitial_spec (t : VoucherType) :
  Js.toUpperCase (Js.charAt0 (voucherTypeName t)) = Numbering.typeInitial t.
Proof. destruct t; reflexivity. Qed.

Lemma VoucherType_eqb_eq (a b : VoucherType) : VoucherType_eqb a b = true <-> a = b.
Proof. destruct a, b; split; intros H; try reflexivity; discriminate H. Qed.

Lemma VoucherType_eqb_neq (a b : VoucherType) : a <> b -> VoucherType_eqb a b = false.
Proof.
  intros H. destruct (VoucherType_eqb a b) eqn:E; [|reflexivity].
  apply VoucherType_eqb_eq in E. contradiction.
Qed.

(** The generated voucher number starts with the initial of the type. *)
Lemma generateVoucherNumber_initial (t : VoucherType) (w : World) :
  exists rest,
    fst (Storage.generateVoucherNumber (voucherTypeName t) w)
    = Returned (Numbering.typeInitial t ++ rest).
Proof.
  rewrite generateVoucherNumber_run. fst_of_pair. cbv zeta.
  rewrite typeInitial_spec. destruct (Fmt.lastVoucherNo t w); eexists; reflexivity.
Qed.

Lemma generateVoucherNumber_same_vouchers (t : VoucherType) (w w' : World) :
  fullYear w' = fullYear w ->
  Numbering.vouchersOf t w' = Numbering.vouchersOf t w ->
  fst (Storage.generateVoucherNumber (voucherTypeName t) w')
  = fst (Storage.generateVoucherNumber (voucherTypeName t) w).
Proof.
  intros Hy Hv. rewrite !generateVoucherNumber_run. fst_of_pair.
  unfold Fmt.lastVoucherNo. fold (Numbering.vouchersOf t w').
  fold (Numbering.vouchersOf t w). rewrite Hy, Hv. reflexivity.
Qed.

Lemma filter_app_other {A} (f : A -> bool) (l : list A) (x : A) :
  f x = false -> filter f (l ++ [x]) = filter f l.
Proof.
  intros H. rewrite filter_app. simpl. rewrite H. apply app_nil_r.
Qed.

Lemma createVoucher_keeps_year (v : InsertVoucher) (w : World) :
  fullYear (snd (Storage.createVoucher v w)) = fullYear w.
Proof.
  destruct (Js.falsy (voucherNo v)) eqn:Hf.
  - pose proof (generateVoucherNumber_run (voucherType v) w) as Hgen.
    rewrite (createVoucher_generated v w _ _ Hf Hgen), insertIntoVouchers_run.
    destruct (taken _ _); reflexivity.
  - rewrite (createVoucher_explicit v w Hf), insertIntoVouchers_run.
    destruct (taken _ _); reflexivity.
Qed.

End VoucherNumbers.



(** X2. Creating a voucher of one type leaves the next voucher number of
    every other type as it was. *)
Theorem X2_voucher_counters_are_per_type :
  forall (w : Db.World) (v : Schema.InsertVoucher) (t : Schema.VoucherType),
    Schema.voucherType v <> t ->
    fst (Storage.generateVoucherNumber (Schema.voucherTypeName t)
           (snd (Storage.createVoucher v w)))
    = fst (Storage.generateVoucherNumber (Schema.voucherTypeName t) w).
Proof.
  intros w v t Hne.
  destruct (createVoucher_inserts v w) as (before & row & Hins & Htype & _).
  destruct Hins as (_ & Hfree & Htaken).
  apply generateVoucherNumber_same_vouchers.
  - apply createVoucher_keeps_year.
  - unfold Numbering.vouchersOf.
    destruct (Db.taken (Schema.voucherNo row)
                (map Schema.voucherNo (Db.vouchers (Db.tables w)))) eqn:Ht.
    + destruct (Htaken eq_refl) as [_ ->]. reflexivity.
    + destruct (Hfree eq_refl) as [_ ->]. simpl.
      apply filter_app_other. rewrite Htype.
      apply VoucherType_eqb_neq, Hne.
Qed.

Lemma X2_voucher_counters_are_per_type_witness :
  fst (Storage.generateVoucherNumber "journal"
         (snd (Storage.createVoucher (Samples.newVoucher Schema.payment [])
                 Samples.smallWorld)))
  = Db.Returned "J24002".
Proof.
  exact (eq_trans
           (X2_voucher_counters_are_per_type Samples.smallWorld
              (Samples.newVoucher Schema.payment []) Schema.journal
              ltac:(discriminate))
           eq_refl).
Defined.

(** X3. Voucher numbers generated for two different types are different,
    whatever the tables hold: they start with different letters. *)
Theorem X3_voucher_numbers_of_two_types_differ :
  forall (w w' : Db.World) (t t' : Schema.VoucherType),
    t <> t' ->
    fst (Storage.generateVoucherNumber (Schema.voucherTypeName t) w)
    <> fst (Storage.generateVoucherNumber (Schema.voucherTypeName t') w').
Proof.
  intros w w' t t' Hne.
  destruct (generateVoucherNumber_initial t w) as [rest ->].
  destruct (generateVoucherNumber_initial t' w') as [rest' ->].
  intros H. apply Hne.
  destruct t, t'; try reflexivity; discriminate H.
Qed.

Lemma X3_voucher_numbers_of_two_types_differ_witness :
  fst (Storage.generateVoucherNumber "payment" Samples.smallWorld)
  <> fst (Storage.generateVoucherNumber "receipt" Samples.smallWorld).
Proof.
  apply (X3_voucher_numbers_of_two_types_differ Samples.smallWorld Samples.smallWorld
           Schema.payment Schema.receipt).
  discriminate.
Defined.

(** ** Member numbers below a fourth digit *)

Section MemberNumbers.
Import Schema Db.

Lemma ltb_irrefl (a : string) : String.ltb a a = false.
Proof.
  unfold String.ltb.
  assert (H : String.compare a a = Eq)
    by (apply OrderedTypeEx.String_as_OT.cmp_eq; reflexivity).
  rewrite H. reflexivity.
Qed.

Lemma ltb_trans (a b c : string) :
  String.ltb a b = true -> String.ltb b c = true -> String.ltb a c = true.
Proof. intros Hab Hbc. apply (leb_ltb_trans a b c); [apply ltb_leb, Hab|exact Hbc]. Qed.

(** A key above every key of a table is not in the table. *)
Lemma above_all_not_taken (no : string) (keys : list string) :
  (forall k, In k keys -> String.ltb k no = true) -> taken no keys = false.
Proof.
  intros Habove. unfold taken.
  destruct (existsb (String.eqb no) keys) eqn:E; [|reflexivity].
  apply existsb_exists in E. destruct E as (k & Hin & Heq).
  apply String.eqb_eq in Heq. subst k.
  pose proof (Habove no Hin) as Habs. rewrite ltb_irrefl in Habs. discriminate Habs.
Qed.

Lemma memberNumber_adjacent (n : N) :
  (n < 999)%N ->
  String.ltb (Numbering.memberNumber n) (Numbering.memberNumber (n + 1)) = true.
Proof. apply member_numbers_adjacent. Qed.

(** Member numbers with three-digit counters are in the order of their
    counters. *)
Lemma memberNumber_increasing (i : N) (d : nat) :
  (i + 1 + N.of_nat d <= 999)%N ->
  String.ltb (Numbering.memberNumber i)
    (Numbering.memberNumber (i + 1 + N.of_nat d)) = true.
Proof.
  induction d as [|d IH]; intros Hle.
  - rewrite N.add_0_r. apply memberNumber_adjacent. lia.
  - apply (ltb_trans _ (Numbering.memberNumber (i + 1 + N.of_nat d))).
    + apply IH. lia.
    + replace (i + 1 + N.of_nat (S d))%N with (i + 1 + N.of_nat d + 1)%N by lia.
      apply memberNumber_adjacent. lia.
Qed.

Lemma memberNumber_lt (i j : N) :
  (i < j)%N -> (j <= 999)%N ->
  String.ltb (Numbering.memberNumber i) (Numbering.memberNumber j) = true.
Proof.
  intros Hij Hj.
  replace j with (i + 1 + N.of_nat (N.to_nat (j - i - 1)))%N by lia.
  apply memberNumber_increasing. lia.
Qed.

Lemma memberNumbers_succ (k : nat) :
  Numbering.memberNumbers (S k)
  = (Numbering.memberNumbers k ++ [Numbering.memberNumber (N.of_nat k + 1)])%list.
Proof.
  unfold Numbering.memberNumbers. rewrite seq_S, map_app. simpl.
  replace (N.pos (Pos.of_succ_nat k)) with (N.of_nat k + 1)%N by lia.
  reflexivity.
Qed.

Lemma in_memberNumbers (k : nat) (key : string) :
  In key (Numbering.memberNumbers k) ->
  exists i, (1 <= i <= N.of_nat k)%N /\ key = Numbering.memberNumber i.
Proof.
  unfold Numbering.memberNumbers. rewrite in_map_iff.
  intros (i & <- & Hin). apply in_seq in Hin.
  exists (N.of_nat i). split; [lia|reflexivity].
Qed.

(** The greatest of [MEM_001 .. MEM_k] in the order of strings is the one
    with counter [k], as long as the counters have three digits. *)
Lemma last_of_memberNumbers (k : nat) :
  (1 <= k <= 999)%nat ->
  orderByDescLimit1 (Numbering.memberNumbers k)
  = Some (Numbering.memberNumber (N.of_nat k)).
Proof.
  intros Hk.
  destruct (orderByDescLimit1_some (Numbering.memberNumbers k)) as [best Hbest].
  { destruct k as [|k]; [lia|]. rewrite memberNumbers_succ.
    intros H. apply app_eq_nil in H. destruct H as [_ H]. discriminate H. }
  rewrite Hbest. f_equal.
  destruct (orderByDescLimit1_max _ _ Hbest) as [Hin Hmax].
  destruct (in_memberNumbers k best Hin) as (i & Hi & ->).
  destruct (N.eq_dec i (N.of_nat k)) as [->|Hne]; [reflexivity|].
  assert (Hlast : In (Numbering.memberNumber (N.of_nat k)) (Numbering.memberNumbers k)).
  { unfold Numbering.memberNumbers. apply in_map_iff. exists k.
    split; [reflexivity|]. apply in_seq. lia. }
  pose proof (Hmax _ Hlast) as Hle.
  assert (Hlt : String.ltb (Numbering.memberNumber i)
                  (Numbering.memberNumber (N.of_nat k)) = true)
    by (apply memberNumber_lt; lia).
  pose proof (leb_ltb_trans _ _ _ Hle Hlt) as Habs.
  rewrite ltb_irrefl in Habs. discriminate Habs.
Qed.

Lemma createMember_without_number (m : InsertMember) (w : World) (no : string) :
  Js.falsy (memNo m) = true ->
  fst (Storage.generateMemberNumber w) = Returned no ->
  taken no (Numbering.memNos w) = false ->
  fst (Storage.createMember m w) = Returned (mkMember no (memberFields m))
  /\ tables (snd (Storage.createMember m w))
     = mkTables (members (tables w) ++ [mkMember no (memberFields m)])
         (loans (tables w)) (vouchers (tables w)).
Proof.
  intros Hf Hno Hfree.
  assert (Hgen : Storage.generateMemberNumber w
                 = (Returned no, issue SelectLastMemNo w)).
  { rewrite (surjective_pairing (Storage.generateMemberNumber w)), Hno.
    rewrite generateMemberNumber_run. reflexivity. }
  rewrite (createMember_generated m w _ _ Hf Hgen), insertIntoMembers_run.
  simpl. unfold Numbering.memNos in Hfree. rewrite Hfree. split; reflexivity.
Qed.

Lemma generateMemberNumber_first (w : World) :
  members (tables w) = [] ->
  fst (Storage.generateMemberNumber w) = Returned "MEM_001".
Proof.
  intros H. rewrite generateMemberNumber_run. fst_of_pair.
  unfold Fmt.lastMemNo. rewrite H. reflexivity.
Qed.

(** One more member after [MEM_001 .. MEM_k]. *)
Lemma enrol_step (k : nat) (w : World) :
  (k < 999)%nat ->
  Numbering.memNos w = Numbering.memberNumbers k ->
  Numbering.memNos (snd (Storage.createMember Samples.newMember w))
  = Numbering.memberNumbers (S k).
Proof.
  intros Hk Hkeys. rewrite memberNumbers_succ.
  assert (Hgen : fst (Storage.generateMemberNumber w)
                 = Returned (Numbering.memberNumber (N.of_nat k + 1))).
  { destruct k as [|k].
    - apply generateMemberNumber_first.
      unfold Numbering.memNos in Hkeys. apply map_eq_nil in Hkeys. exact Hkeys.
    - pose proof (last_of_memberNumbers (S k) ltac:(lia)) as Hlast.
      rewrite <- Hkeys in Hlast.
      rewrite (generateMemberNumber_next w (Fmt.padded 3 (N.of_nat (S k))) Hlast
                 (isDecimal_padded3 _)).
      rewrite decimalValue_padded3. reflexivity. }
  assert (Hfree : taken (Numbering.memberNumber (N.of_nat k + 1)) (Numbering.memNos w)
                  = false).
  { apply above_all_not_taken. intros key Hin. rewrite Hkeys in Hin.
    destruct (in_memberNumbers k key Hin) as (i & Hi & ->).
    apply memberNumber_lt; lia. }
  destruct (createMember_without_number Samples.newMember w _ eq_refl Hgen Hfree)
    as [_ Htab].
  unfold Numbering.memNos. rewrite Htab. simpl. rewrite map_app.
  fold (Numbering.memNos w). rewrite Hkeys. reflexivity.
Qed.

Lemma enrol_from (k : nat) :
  forall (j : nat) (w : World),
    (j + k <= 999)%nat ->
    Numbering.memNos w = Numbering.memberNumbers j ->
    Numbering.memNos (Samples.enrol k w) = Numbering.memberNumbers (j + k).
Proof.
  induction k as [|k IH]; intros j w Hle Hkeys; simpl.
  - rewrite Nat.add_0_r. exact Hkeys.
  - replace (j + S k)%nat with (S j + k)%nat by lia.
    apply IH; [lia|]. apply enrol_step; [lia|exact Hkeys].
Qed.

End MemberNumbers.

(** X4. While every member number of the table is [MEM_] and a three-digit
    counter below 999, creating a member without identifier succeeds: the
    member is stored last, under a number that is above every member number
    of the table in the order of strings. *)
Theorem X4_create_member_below_overflow :
  forall (w : Db.World) (m : Schema.InsertMember),
    Js.falsy (Schema.memNo m) = true ->
    (forall key, In key (Numbering.memNos w) -> Numbering.threeDigits key) ->
    exists no,
      fst (Storage.createMember m w)
      = Db.Returned (Schema.mkMember no (Schema.memberFields m))
      /\ Db.members (Db.tables (snd (Storage.createMember m w)))
         = (Db.members (Db.tables w)
            ++ [Schema.mkMember no (Schema.memberFields m)])%list
      /\ (forall key, In key (Numbering.memNos w) -> String.ltb key no = true).
Proof.
  intros w m Hf Hform.
  destruct (Db.members (Db.tables w)) as [|m0 ms] eqn:Hms.
  - exists "MEM_001".
    assert (Hkeys : Numbering.memNos w = []) by (unfold Numbering.memNos; rewrite Hms; reflexivity).
    destruct (createMember_without_number m w "MEM_001" Hf
                (generateMemberNumber_first w Hms))
      as [Hr Htab].
    { rewrite Hkeys. reflexivity. }
    rewrite Hr, Htab, Hms. simpl. repeat split. rewrite Hkeys. intros key [].
  - destruct (member_numbers_increase_below_999 w) as (no & Hgen & Habove).
    { rewrite Hms. discriminate. }
    { exact Hform. }
    exists no.
    destruct (createMember_without_number m w no Hf Hgen
                (above_all_not_taken no _ Habove))
      as [Hr Htab].
    rewrite Hr, Htab, Hms. simpl. repeat split. exact Habove.
Qed.

Lemma X4_create_member_below_overflow_witness :
  exists no,
    fst (Storage.createMember Samples.newMember
           (Samples.membersWorld 2024 ["MEM_007"; "MEM_120"; "MEM_041"]))
    = Db.Returned (Schema.mkMember no [("name", "Asha")])
    /\ String.ltb "MEM_120" no = true.
Proof.
  destruct (X4_create_member_below_overflow
              (Samples.membersWorld 2024 ["MEM_007"; "MEM_120"; "MEM_041"])
              Samples.newMember eq_refl)
    as (no & Hr & _ & Habove).
  - intros key [<-|[<-|[<-|[]]]].
    + exists 7%N. split; reflexivity.
    + exists 120%N. split; reflexivity.
    + exists 41%N. split; reflexivity.
  - exists no. split; [exact Hr|]. apply Habove. right. left. reflexivity.
Defined.

(** X5. Members created one after the other without identifier, from an
    empty table, receive [MEM_001], [MEM_002], ... in this order, up to
    [MEM_999]. *)
Theorem X5_first_999_member_numbers :
  forall (k : nat) (year : Z),
    (k <= 999)%nat ->
    Numbering.memNos (Samples.enrol k (Db.startWorld year))
    = Numbering.memberNumbers k.
Proof.
  intros k year Hk. apply (enrol_from k 0 (Db.startWorld year)); [lia|reflexivity].
Qed.

Lemma X5_first_999_member_numbers_witness :
  Numbering.memNos (Samples.enrol 3 (Db.startWorld 2024))
  = ["MEM_001"; "MEM_002"; "MEM_003"].
Proof.
  exact (eq_trans (X5_first_999_member_numbers 3 2024 ltac:(lia)) eq_refl).
Defined.



(** ** What the create-voucher route does to the tables *)

Section RouteFrame.
Import Schema Db Routes.

Lemma createVoucher_outcome (v : InsertVoucher) (w : World) :
  exists row,
    entries row = entries v
    /\ voucherType row = voucherType v
    /\ (Js.falsy (voucherNo v) = false -> row = v)
    /\ (Js.falsy (voucherNo v) = true ->
        fst (Storage.generateVoucherNumber (voucherTypeName (voucherType v)) w)
        = Returned (voucherNo row))
    /\ ((fst (Storage.createVoucher v w) = Returned row
         /\ tables (snd (Storage.createVoucher v w))
            = mkTables (members (tables w)) (loans (tables w))
                (vouchers (tables w) ++ [row]))
        \/ (exists e, fst (Storage.createVoucher v w) = Thrown e)
           /\ tables (snd (Storage.createVoucher v w)) = tables w).
Proof.
  destruct (Js.falsy (voucherNo v)) eqn:Hf.
  - pose proof (generateVoucherNumber_run (voucherType v) w) as Hgen.
    rewrite (createVoucher_generated v w _ _ Hf Hgen), insertIntoVouchers_run.
    eexists (mkVoucher _ (voucherType v) (entries v) (voucherFields v)).
    split; [reflexivity|]. split; [reflexivity|]. split; [discriminate|].
    split; [intros _; rewrite Hgen; reflexivity|].
    simpl. destruct (taken _ _); [right|left]; simpl; eauto.
  - rewrite (createVoucher_explicit v w Hf), insertIntoVouchers_run.
    exists v. split; [reflexivity|]. split; [reflexivity|].
    split; [reflexivity|]. split; [discriminate|].
    destruct (taken _ _); [right|left]; simpl; eauto.
Qed.

Lemma handler_summary (req : Request) (w : World) :
  exists resp,
    fst (createVoucherHandler req w) = Returned resp
    /\ ((status resp = 201%nat
         /\ exists row,
              json resp = VoucherJson row
              /\ entries row = bodyEntries (body req)
              /\ tables (snd (createVoucherHandler req w))
                 = mkTables (members (tables w)) (loans (tables w))
                     (vouchers (tables w) ++ [row]))
        \/ (status resp = 500%nat
            /\ tables (snd (createVoucherHandler req w)) = tables w)).
Proof.
  destruct (insertVoucherSchema_parse (body req) w) as [[v|e] w1] eqn:Hp.
  - destruct (parse_keeps_entries _ _ _ _ Hp) as [-> Hentries].
    rewrite (handler_after_parse req w v Hp).
    destruct (createVoucher_outcome v w) as (row & He & _ & _ & _ & Hrun).
    destruct (Storage.createVoucher v w) as [[voucher|e] w'].
    + simpl in Hrun. destruct Hrun as [[Hr Htab]|[[e He'] _]]; [|discriminate He'].
      injection Hr as ->. eexists. split; [reflexivity|]. left.
      split; [reflexivity|]. exists row. simpl.
      split; [reflexivity|]. split; [congruence|exact Htab].
    + simpl in Hrun. destruct Hrun as [[Hr _]|[_ Htab]]; [discriminate Hr|].
      eexists. split; [reflexivity|]. right. split; [reflexivity|exact Htab].
  - assert (Hw : w1 = w).
    { rewrite parse_run in Hp.
      destruct (bodyVoucherNo (body req)), (bodyVoucherType (body req)),
        (bodyVoucherDate (body req)); try (injection Hp as _ <-; reflexivity).
      destruct (voucherTypeOfName _); injection Hp as _ <-; reflexivity. }
    subst w1. rewrite (handler_parse_failure req w e Hp).
    eexists. split; [reflexivity|]. right. split; reflexivity.
Qed.

Lemma admitted_opens (r : Role) :
  Fmt.admitted (ActiveUser r) = ClientAuth.voucherPageOpens (Some r).
Proof. destruct r; reflexivity. Qed.

End RouteFrame.

(** X7. Whatever the request, the create-voucher route answers (it never
    lets an error escape) with status 201, 401, 403 or 500, and it never
    touches the members or the loans. With 201 the body of the answer is the
    one voucher that was added to the table, at the end; with any other
    status no table has changed. *)
Theorem X7_create_voucher_route_stores_one_voucher_or_nothing :
  forall (req : Routes.Request) (w : Db.World),
    exists resp,
      fst (Routes.postApiVouchers req w) = Db.Returned resp
      /\ In (Routes.status resp) [201; 401; 403; 500]%nat
      /\ Db.members (Db.tables (snd (Routes.postApiVouchers req w)))
         = Db.members (Db.tables w)
      /\ Db.loans (Db.tables (snd (Routes.postApiVouchers req w)))
         = Db.loans (Db.tables w)
      /\ (Routes.status resp = 201%nat ->
          exists row,
            Routes.json resp = Routes.VoucherJson row
            /\ Db.vouchers (Db.tables (snd (Routes.postApiVouchers req w)))
               = (Db.vouchers (Db.tables w) ++ [row])%list)
      /\ (Routes.status resp <> 201%nat ->
          Db.tables (snd (Routes.postApiVouchers req w)) = Db.tables w).
Proof.
  intros req w.
  destruct (Fmt.admitted (Routes.credentials req)) eqn:Hadm.
  - rewrite (route_admits req w Hadm).
    destruct (handler_summary req w) as (resp & Hr & [[Hs (row & Hj & _ & Htab)]|[Hs Htab]]);
      exists resp; rewrite Hr, Htab, Hs; simpl.
    + repeat split; auto.
      * exists row. split; [exact Hj|reflexivity].
      * intros H. contradiction H. reflexivity.
    + repeat split; auto. intros H. discriminate H.
  - destruct (route_rejects_credentials req w Hadm) as (resp & Hrun & Hs).
    exists resp. rewrite Hrun. simpl.
    destruct Hs as [Hs|Hs]; rewrite Hs; repeat split; auto;
      intros H; discriminate H.
Qed.



(** X9. The voucher page opens for a logged-in user exactly when the
    middleware of the create-voucher route admits a user of that role; it
    never opens without a user. *)
Theorem X9_voucher_page_and_route_admit_the_same_roles :
  forall (r : Routes.Role) (body : Routes.VoucherBody) (w : Db.World),
    ClientAuth.voucherPageOpens None = false
    /\ (ClientAuth.voucherPageOpens (Some r) = true <->
        Routes.postApiVouchers (Routes.mkRequest (Routes.ActiveUser r) body) w
        = Routes.createVoucherHandler
            (Routes.mkRequest (Routes.ActiveUser r) body) w)
    /\ (ClientAuth.voucherPageOpens (Some r) = false <->
        Routes.postApiVouchers (Routes.mkRequest (Routes.ActiveUser r) body) w
        = (Db.Returned (Routes.mkResponse 403 (Routes.Message "Insufficient permissions")),
           w)).
Proof.
  intros r body w. split; [reflexivity|].
  pose proof (handler_summary (Routes.mkRequest (Routes.ActiveUser r) body) w)
    as (resp & Hr & Hcases).
  destruct r; simpl; (split; split; intros H; try reflexivity; try discriminate H).
  all: try (exfalso; unfold Routes.postApiVouchers in H; simpl in H;
            rewrite H in Hr; simpl in Hr; injection Hr as <-;
            destruct Hcases as [[Hs _]|[Hs _]]; discriminate Hs).
  all: exfalso; unfold Routes.postApiVouchers in H; simpl in H;
    unfold Db.ret in H; rewrite <- H in Hr; simpl in Hr; injection Hr as <-;
    destruct Hcases as [[Hs _]|[Hs _]]; discriminate Hs.
Qed.

(** ** Adding and removing entries *)

Section EntryList.
Import Schema.

Lemma filterIndexNot_before {A} (index : nat) (a : list A) :
  forall from, (index < from)%nat -> VoucherPage.filterIndexNot index from a = a.
Proof.
  induction a as [|x a IH]; intros from H; simpl; [reflexivity|].
  destruct (Nat.eqb_spec from index) as [->|_]; [lia|].
  rewrite IH by lia. reflexivity.
Qed.

Lemma filterIndexNot_cut {A} (a : list A) :
  forall index from,
    (from <= index)%nat ->
    VoucherPage.filterIndexNot index from a
    = (firstn (index - from) a ++ skipn (S (index - from)) a)%list.
Proof.
  induction a as [|x a IH]; intros index from H; simpl.
  - destruct (index - from)%nat; reflexivity.
  - destruct (Nat.eqb_spec from index) as [->|Hne].
    + rewrite Nat.sub_diag. simpl. apply filterIndexNot_before. lia.
    + rewrite IH by lia.
      replace (index - from)%nat with (S (index - S from)) by lia.
      reflexivity.
Qed.

Lemma removeEntry_entries (index : nat) (st : VoucherPage.State) :
  VoucherPage.entries (VoucherPage.removeEntry index st)
  = (firstn index (VoucherPage.entries st)
     ++ skipn (S index) (VoucherPage.entries st))%list.
Proof.
  unfold VoucherPage.removeEntry. simpl.
  rewrite filterIndexNot_cut by lia. rewrite Nat.sub_0_r. reflexivity.
Qed.

Lemma sumDebit_app (a b : list VoucherEntry) :
  SpecWords.sumDebit (a ++ b) == SpecWords.sumDebit a + SpecWords.sumDebit b.
Proof.
  induction a as [|e a IH]; simpl; [ring|]. rewrite IH. ring.
Qed.

Lemma sumCredit_app (a b : list VoucherEntry) :
  SpecWords.sumCredit (a ++ b) == SpecWords.sumCredit a + SpecWords.sumCredit b.
Proof.
  induction a as [|e a IH]; simpl; [ring|]. rewrite IH. ring.
Qed.

Lemma applyOp_add_entries (st : VoucherPage.State) (c : VoucherPage.CurrentEntry) :
  VoucherPage.entries (VoucherPage.applyOp st (VoucherPage.AddEntry c))
  = if Js.falsy (VoucherPage.curParticulars c)
    then VoucherPage.entries st
    else (VoucherPage.entries st ++ [VoucherPage.newEntryOf c])%list.
Proof.
  unfold VoucherPage.applyOp. rewrite addEntry_entries. reflexivity.
Qed.

End EntryList.

(** X10. [removeEntry(index)] takes out the entry at position [index] and
    keeps the others in order: the list shrinks by one when the index is in
    range and stays as it is when it is not; the form data, the entry being
    typed and the selected voucher are not touched. *)
Theorem X10_removeEntry_removes_one_position :
  forall (st : VoucherPage.State) (index : nat),
    let es := VoucherPage.entries st in
    let es' := VoucherPage.entries (VoucherPage.removeEntry index st) in
    es' = (firstn index es ++ skipn (S index) es)%list
    /\ ((index < List.length es)%nat -> S (List.length es') = List.length es)
    /\ ((List.length es <= index)%nat -> es' = es)
    /\ VoucherPage.formData (VoucherPage.removeEntry index st) = VoucherPage.formData st
    /\ VoucherPage.currentEntry (VoucherPage.removeEntry index st)
       = VoucherPage.currentEntry st
    /\ VoucherPage.selectedVoucher (VoucherPage.removeEntry index st)
       = VoucherPage.selectedVoucher st.
Proof.
  intros st index es es'. unfold es'. rewrite removeEntry_entries. fold es.
  split; [reflexivity|]. split; [|split].
  - intros H. rewrite List.length_app, length_firstn, length_skipn. lia.
  - intros H. rewrite firstn_all2 by exact H. rewrite skipn_all2 by lia.
    apply app_nil_r.
  - repeat split.
Qed.

Lemma X10_removeEntry_removes_one_position_witness :
  VoucherPage.entries (VoucherPage.removeEntry 0 Samples.balancedForm)
  = [Schema.mkEntry "Bank" 0 100]
  /\ VoucherPage.entries (VoucherPage.removeEntry 2 Samples.balancedForm)
     = VoucherPage.entries Samples.balancedForm.
Proof.
  destruct (X10_removeEntry_removes_one_position Samples.balancedForm 0)
    as (Hcut & Hin & _).
  destruct (X10_removeEntry_removes_one_position Samples.balancedForm 2)
    as (_ & _ & Hout & _).
  split.
  - rewrite Hcut. pose proof (Hin ltac:(simpl; lia)) as _. reflexivity.
  - apply Hout. simpl. lia.
Defined.

(** X11. Adding an entry and removing the last position gives back the
    entries as they were. *)
Theorem X11_remove_undoes_add :
  forall st : VoucherPage.State,
    Js.falsy (VoucherPage.curParticulars (VoucherPage.currentEntry st)) = false ->
    VoucherPage.entries
      (VoucherPage.removeEntry (List.length (VoucherPage.entries st))
         (VoucherPage.addEntry st))
    = VoucherPage.entries st.
Proof.
  intros st Hp. rewrite removeEntry_entries, addEntry_entries, Hp.
  rewrite firstn_app, Nat.sub_diag, firstn_all, firstn_O.
  rewrite skipn_all2 by (rewrite List.length_app; simpl; lia).
  rewrite !app_nil_r. reflexivity.
Qed.

Lemma X11_remove_undoes_add_witness :
  VoucherPage.entries
    (VoucherPage.removeEntry 1 (VoucherPage.addEntry Samples.fillingForm))
  = [Schema.mkEntry "Cash" 100 0].
Proof.
  exact (X11_remove_undoes_add Samples.fillingForm eq_refl).
Defined.



(** X13. A debit line and a credit line of the same amount, added one after
    the other, keep balanced entries balanced when the amount is not
    negative, and make empty entries balanced when it is positive. *)
Theorem X13_matching_lines_keep_the_balance :
  forall (st : VoucherPage.State) (p q : string) (a d1 c1 d2 c2 : Q),
    Js.falsy p = false ->
    Js.falsy q = false ->
    let st' :=
      VoucherPage.applyOp
        (VoucherPage.applyOp st
           (VoucherPage.AddEntry (VoucherPage.mkCurrent p d1 c1 VoucherPage.debitType a)))
        (VoucherPage.AddEntry (VoucherPage.mkCurrent q d2 c2 VoucherPage.creditType a)) in
    (VoucherPage.isBalanced (VoucherPage.entries st) = true -> 0 <= a ->
     VoucherPage.isBalanced (VoucherPage.entries st') = true)
    /\ (VoucherPage.entries st = [] -> 0 < a ->
        VoucherPage.isBalanced (VoucherPage.entries st') = true).
Proof.
  intros st p q a d1 c1 d2 c2 Hp Hq st'.
  assert (Hent : VoucherPage.entries st'
                 = (VoucherPage.entries st
                    ++ [Schema.mkEntry p a 0; Schema.mkEntry q 0 a])%list).
  { unfold st'. rewrite !applyOp_add_entries.
    cbn [VoucherPage.curParticulars]. rewrite Hp, Hq.
    rewrite <- app_assoc. reflexivity. }
  rewrite Hent. split.
  - intros Hb Ha. apply isBalanced_spec in Hb. destruct Hb as [Heq Hpos].
    apply isBalanced_spec. unfold SpecWords.balanced.
    rewrite sumDebit_app, sumCredit_app. simpl. split.
    + rewrite Heq. ring.
    + apply (Qlt_le_trans _ (SpecWords.sumDebit (VoucherPage.entries st) + 0)).
      * rewrite Qplus_0_r. exact Hpos.
      * apply Qplus_le_r. rewrite Qplus_0_r, Qplus_0_r. exact Ha.
  - intros -> Ha. apply isBalanced_spec. unfold SpecWords.balanced. simpl. split.
    + ring.
    + rewrite !Qplus_0_r. exact Ha.
Qed.

Lemma X13_matching_lines_keep_the_balance_witness :
  VoucherPage.isBalanced
    (VoucherPage.entries
       (VoucherPage.applyOp
          (VoucherPage.applyOp Samples.balancedForm
             (VoucherPage.AddEntry
                (VoucherPage.mkCurrent "Rent" 0 0 VoucherPage.debitType 40)))
          (VoucherPage.AddEntry
             (VoucherPage.mkCurrent "Cash" 0 0 VoucherPage.creditType 40))))
  = true
  /\ VoucherPage.isBalanced
       (VoucherPage.entries
          (VoucherPage.applyOp
             (VoucherPage.applyOp (VoucherPage.initialState Samples.paymentForm)
                (VoucherPage.AddEntry
                   (VoucherPage.mkCurrent "Rent" 0 0 VoucherPage.debitType 40)))
             (VoucherPage.AddEntry
                (VoucherPage.mkCurrent "Cash" 0 0 VoucherPage.creditType 40))))
     = true.
Proof.
  split.
  - apply (proj1 (X13_matching_lines_keep_the_balance Samples.balancedForm
                    "Rent" "Cash" 40 0 0 0 0 eq_refl eq_refl)).
    + reflexivity.
    + discriminate.
  - apply (proj2 (X13_matching_lines_keep_the_balance
                    (VoucherPage.initialState Samples.paymentForm)
                    "Rent" "Cash" 40 0 0 0 0 eq_refl eq_refl)).
    + reflexivity.
    + reflexivity.
Defined.

(** ** Editing a voucher, starting a new one *)

Section Dialog.

Lemma applyOp_selectedVoucher (st : VoucherPage.State) (op : VoucherPage.EntryOp) :
  VoucherPage.selectedVoucher (VoucherPage.applyOp st op)
  = VoucherPage.selectedVoucher st.
Proof.
  destruct op as [c|index]; simpl; [|reflexivity].
  unfold VoucherPage.addEntry. destruct (Js.falsy _); reflexivity.
Qed.

Lemma run_selectedVoucher (ops : list VoucherPage.EntryOp) :
  forall st,
    VoucherPage.selectedVoucher (fold_left VoucherPage.applyOp ops st)
    = VoucherPage.selectedVoucher st.
Proof.
  induction ops as [|op ops IH]; intros st; simpl; [reflexivity|].
  rewrite IH. apply applyOp_selectedVoucher.
Qed.

(** What [handleSubmit] does, by the selected voucher. *)
Lemma handleSubmit_cases (st : VoucherPage.State) :
  (VoucherPage.isBalanced (VoucherPage.entries st) = false
   /\ exists st', VoucherPage.handleSubmit st = VoucherPage.Refused st')
  \/ (VoucherPage.isBalanced (VoucherPage.entries st) = true
      /\ exists d,
           VoucherPage.dataEntries d = VoucherPage.entries st
           /\ VoucherPage.dataForm d = VoucherPage.formData st
           /\ VoucherPage.handleSubmit st
              = match VoucherPage.selectedVoucher st with
                | Some id => VoucherPage.UpdateMutation id d
                | None => VoucherPage.CreateMutation d
                end).
Proof.
  unfold VoucherPage.handleSubmit.
  destruct (VoucherPage.isBalanced (VoucherPage.entries st)); simpl.
  - right. split; [reflexivity|].
    destruct (VoucherPage.calculateTotals (VoucherPage.entries st)) as [td tc].
    eexists. split; [|split; [|reflexivity]]; reflexivity.
  - left. split; [reflexivity|]. eexists. reflexivity.
Qed.

End Dialog.

(** X14. After [handleEdit] the form holds the entries of the voucher (none
    when the voucher has none) and the dialog is open; whatever entries are
    then added or removed, submitting never creates a voucher: it is refused
    or it updates the voucher that was opened. After [resetForm] the entries
    are empty, so submitting at once is refused, and whatever entries are
    then added or removed, submitting never updates a voucher. *)
Theorem X14_edit_updates_and_reset_creates :
  forall (voucher : VoucherDialog.Voucher) (p : VoucherDialog.Page)
         (today : string) (ops : list VoucherPage.EntryOp),
    let opened := VoucherDialog.state (VoucherDialog.handleEdit voucher p) in
    let blank := VoucherDialog.state (VoucherDialog.resetForm today p) in
    let edited := fold_left VoucherPage.applyOp ops opened in
    let fresh := fold_left VoucherPage.applyOp ops blank in
    (VoucherPage.entries opened
     = match VoucherDialog.entries voucher with Some es => es | None => [] end
     /\ VoucherDialog.isDialogOpen (VoucherDialog.handleEdit voucher p) = true)
    /\ ((exists st', VoucherPage.handleSubmit edited = VoucherPage.Refused st')
        \/ (exists d,
              VoucherPage.handleSubmit edited
              = VoucherPage.UpdateMutation (VoucherDialog.id voucher) d
              /\ VoucherPage.dataEntries d = VoucherPage.entries edited))
    /\ (VoucherPage.entries blank = []
        /\ exists st', VoucherPage.handleSubmit blank = VoucherPage.Refused st')
    /\ ((exists st', VoucherPage.handleSubmit fresh = VoucherPage.Refused st')
        \/ (exists d,
              VoucherPage.handleSubmit fresh = VoucherPage.CreateMutation d
              /\ VoucherPage.dataEntries d = VoucherPage.entries fresh)).
Proof.
  intros voucher p today ops opened blank edited fresh.
  split; [split; reflexivity|]. split; [|split].
  - destruct (handleSubmit_cases edited) as [[_ H]|[_ (d & He & _ & H)]]; [left; exact H|].
    right. exists d. split; [|exact He]. rewrite H. unfold edited.
    rewrite run_selectedVoucher. reflexivity.
  - split; [reflexivity|]. eexists. reflexivity.
  - destruct (handleSubmit_cases fresh) as [[_ H]|[_ (d & He & _ & H)]]; [left; exact H|].
    right. exists d. split; [|exact He]. rewrite H. unfold fresh.
    rewrite run_selectedVoucher. reflexivity.
Qed.

(** ** Pages of the data table *)

Section Pages.
Context {A : Type}.

Lemma page_rows (rows : list A) (perPage : positive) (p : Z) :
  (1 <= p)%Z ->
  Paging.page rows perPage p
  = firstn (Pos.to_nat perPage)
      (skipn (Z.to_nat ((p - 1) * Z.pos perPage)) rows).
Proof.
  intros Hp. unfold Paging.page, DataTable.pageOf, DataTable.slice. simpl.
  set (len := Z.of_nat (List.length rows)).
  set (first := ((p - 1) * Z.pos perPage)%Z).
  assert (Hfirst : (0 <= first)%Z) by (unfold first; nia).
  assert (Hlast : (p * Z.pos perPage = first + Z.pos perPage)%Z) by (unfold first; lia).
  rewrite Hlast.
  destruct (Z.ltb_spec first 0) as [Hneg|_]; [lia|].
  destruct (Z.ltb_spec (first + Z.pos perPage) 0) as [Hneg|_]; [lia|].
  destruct (Z_lt_le_dec first len) as [Hin|Hout].
  - rewrite (Z.min_l first len) by lia.
    destruct (Z_le_gt_dec (first + Z.pos perPage) len) as [Hfull|Hshort].
    + rewrite Z.min_l by lia. f_equal. lia.
    + rewrite Z.min_r by lia.
      rewrite !firstn_all2; [reflexivity| |]; rewrite length_skipn; unfold len in *; lia.
  - rewrite (Z.min_r first len) by lia.
    rewrite !skipn_all2 by (unfold len in *; lia).
    rewrite !firstn_nil. reflexivity.
Qed.

Lemma length_page (rows : list A) (perPage : positive) (p : Z) :
  (1 <= p)%Z ->
  Z.of_nat (List.length (Paging.page rows perPage p))
  = Z.max 0
      (Z.min (Z.pos perPage)
         (Z.of_nat (List.length rows) - (p - 1) * Z.pos perPage)).
Proof.
  intros Hp. rewrite (page_rows rows perPage p Hp), length_firstn, length_skipn.
  nia.
Qed.

Lemma firstn_plus (a b : nat) (l : list A) :
  firstn (a + b) l = (firstn a l ++ firstn b (skipn a l))%list.
Proof.
  revert l. induction a as [|a IH]; intros l; simpl; [reflexivity|].
  destruct l as [|x l]; simpl.
  - rewrite firstn_nil. reflexivity.
  - rewrite IH. reflexivity.
Qed.

Lemma pagesUpTo_firstn (rows : list A) (perPage : positive) (count : nat) :
  Paging.pagesUpTo rows perPage count
  = firstn (count * Pos.to_nat perPage) rows.
Proof.
  unfold Paging.pagesUpTo.
  induction count as [|count IH]; [reflexivity|].
  rewrite seq_S, map_app, concat_app, IH. simpl.
  rewrite (page_rows rows perPage (Z.pos (Pos.of_succ_nat count))) by lia.
  rewrite app_nil_r.
  replace (Z.to_nat ((Z.pos (Pos.of_succ_nat count) - 1) * Z.pos perPage))
    with (count * Pos.to_nat perPage)%nat by nia.
  rewrite <- firstn_plus. f_equal. lia.
Qed.

Lemma totalPages_bounds (length : nat) (perPage : positive) :
  let total := DataTable.totalPages length perPage in
  (0 <= total
   /\ Z.of_nat length <= total * Z.pos perPage
   /\ (total - 1) * Z.pos perPage < Z.of_nat length)%Z.
Proof.
  unfold DataTable.totalPages.
  set (n := Z.of_nat length). set (k := Z.pos perPage).
  assert (Hk : (0 < k)%Z) by (unfold k; lia).
  assert (Hn : (0 <= n)%Z) by (unfold n; lia).
  pose proof (Z.div_mod (n + k - 1) k ltac:(lia)) as Hdm.
  pose proof (Z.mod_pos_bound (n + k - 1) k Hk) as Hmod.
  set (q := ((n + k - 1) / k)%Z) in *. set (r := ((n + k - 1) mod k)%Z) in *.
  clearbody q r. nia.
Qed.

End Pages.

(** X15. [handlePageChange] never leaves the range of the pages: the page
    it sets is at least 1, at most the number of pages when there is a
    page, the page asked for when that one exists, and 1 when there is no
    row; nothing else of the state changes. *)
Theorem X15_handlePageChange_stays_in_range :
  forall (length : nat) (page : Z) (st : DataTable.State),
    let total := DataTable.totalPages length (DataTable.itemsPerPage st) in
    let st' := DataTable.handlePageChange total page st in
    (1 <= DataTable.currentPage st')%Z
    /\ ((1 <= length)%nat -> (DataTable.currentPage st' <= total)%Z)
    /\ ((1 <= page <= total)%Z -> DataTable.currentPage st' = page)
    /\ (length = 0%nat -> DataTable.currentPage st' = 1%Z)
    /\ DataTable.searchTerm st' = DataTable.searchTerm st
    /\ DataTable.sortColumn st' = DataTable.sortColumn st
    /\ DataTable.sortDirection st' = DataTable.sortDirection st
    /\ DataTable.itemsPerPage st' = DataTable.itemsPerPage st.
Proof.
  intros length page st total st'.
  pose proof (totalPages_bounds length (DataTable.itemsPerPage st)) as (H0 & Hup & Hlow).
  fold total in H0, Hup, Hlow. simpl.
  split; [lia|]. split; [|split; [|split]].
  - intros Hlen. assert (1 <= total)%Z by nia. lia.
  - intros Hpage. lia.
  - intros Hlen. rewrite Hlen in Hlow, Hup. assert (total <= 0)%Z by nia. lia.
  - repeat split.
Qed.

Lemma X15_handlePageChange_stays_in_range_witness :
  (DataTable.currentPage
     (DataTable.handlePageChange (DataTable.totalPages 23 10) 7
        (DataTable.initialState DataTable.defaultProps))
   <= DataTable.totalPages 23 10)%Z
  /\ DataTable.currentPage
       (DataTable.handlePageChange (DataTable.totalPages 23 10) 2
          (DataTable.initialState DataTable.defaultProps)) = 2%Z
  /\ DataTable.currentPage
       (DataTable.handlePageChange (DataTable.totalPages 0 10) 2
          (DataTable.initialState DataTable.defaultProps)) = 1%Z.
Proof.
  destruct (X15_handlePageChange_stays_in_range 23 7
              (DataTable.initialState DataTable.defaultProps))
    as (_ & Hmax & _).
  destruct (X15_handlePageChange_stays_in_range 23 2
              (DataTable.initialState DataTable.defaultProps))
    as (_ & _ & Hsame & _).
  destruct (X15_handlePageChange_stays_in_range 0 2
              (DataTable.initialState DataTable.defaultProps))
    as (_ & _ & _ & Hnone & _).
  split; [|split].
  - apply Hmax. lia.
  - apply Hsame. vm_compute. split; discriminate.
  - apply Hnone. reflexivity.
Defined.

(** X16. The pages cut the rows without loss: the pages 1 to [totalPages],
    one after the other, are the rows in their order; every page has at most
    [itemsPerPage] rows, every page from 1 to [totalPages] has a row, and
    the pages past [totalPages] are empty. *)
Theorem X16_pages_partition_the_rows :
  forall (A : Type) (rows : list A) (perPage : positive) (p : Z),
    let total := DataTable.totalPages (List.length rows) perPage in
    Paging.pagesUpTo rows perPage (Z.to_nat total) = rows
    /\ ((1 <= p)%Z ->
        (List.length (Paging.page rows perPage p) <= Pos.to_nat perPage)%nat)
    /\ ((1 <= p <= total)%Z -> Paging.page rows perPage p <> [])
    /\ ((total < p)%Z -> Paging.page rows perPage p = []).
Proof.
  intros A rows perPage p total.
  pose proof (totalPages_bounds (List.length rows) perPage) as (H0 & Hup & Hlow).
  fold total in H0, Hup, Hlow.
  split; [|split; [|split]].
  - rewrite pagesUpTo_firstn. apply firstn_all2. nia.
  - intros Hp. pose proof (length_page rows perPage p Hp). lia.
  - intros Hp Hnil. pose proof (length_page rows perPage p ltac:(lia)) as Hlen.
    rewrite Hnil in Hlen. simpl in Hlen.
    nia.
  - intros Hp. assert (Hp1 : (1 <= p)%Z) by lia.
    pose proof (length_page rows perPage p Hp1) as Hlen.
    destruct (Paging.page rows perPage p) as [|x l]; [reflexivity|].
    simpl List.length in Hlen. nia.
Qed.

Lemma X16_pages_partition_the_rows_witness :
  Paging.page [1; 2; 3; 4; 5; 6; 7]%nat 3 3 <> []
  /\ Paging.page [1; 2; 3; 4; 5; 6; 7]%nat 3 4 = []
  /\ (List.length (Paging.page [1; 2; 3; 4; 5; 6; 7]%nat 3 2) <= 3)%nat.
Proof.
  destruct (X16_pages_partition_the_rows nat [1; 2; 3; 4; 5; 6; 7]%nat 3 3)
    as (_ & _ & Hsome & _).
  destruct (X16_pages_partition_the_rows nat [1; 2; 3; 4; 5; 6; 7]%nat 3 4)
    as (_ & _ & _ & Hnone).
  destruct (X16_pages_partition_the_rows nat [1; 2; 3; 4; 5; 6; 7]%nat 3 2)
    as (_ & Hmost & _).
  split; [|split].
  - apply Hsome. vm_compute. split; discriminate.
  - apply Hnone. reflexivity.
  - apply Hmost. lia.
Defined.

(** X17. On a page from 1 to [totalPages] the line "Showing [from] to [to]
    of [n] entries" counts the rows shown: [to - from + 1] is the number of
    rows of the page, [from] is at least 1 and [to] at most [n]. *)
Theorem X17_showing_line_counts_the_page :
  forall (A : Type) (rows : list A) (st : DataTable.State),
    let n := List.length rows in
    let total := DataTable.totalPages n (DataTable.itemsPerPage st) in
    (1 <= DataTable.currentPage st <= total)%Z ->
    (DataTable.showingTo st n - DataTable.showingFrom st + 1
     = Z.of_nat
         (List.length
            (Paging.page rows (DataTable.itemsPerPage st) (DataTable.currentPage st)))
     /\ 1 <= DataTable.showingFrom st <= DataTable.showingTo st n
     /\ DataTable.showingTo st n <= Z.of_nat n)%Z.
Proof.
  intros A rows st n total Hp.
  pose proof (totalPages_bounds n (DataTable.itemsPerPage st)) as (H0 & Hup & Hlow).
  fold total in H0, Hup, Hlow.
  rewrite (length_page rows (DataTable.itemsPerPage st) (DataTable.currentPage st))
    by lia.
  fold n. unfold DataTable.showingTo, DataTable.showingFrom.
  nia.
Qed.

Lemma X17_showing_line_counts_the_page_witness :
  (DataTable.showingTo (DataTable.mkState 3 EmptyString None DataTable.asc 10) 23
   - DataTable.showingFrom (DataTable.mkState 3 EmptyString None DataTable.asc 10) + 1
   = 3)%Z.
Proof.
  destruct (X17_showing_line_counts_the_page nat (seq 0 23)
              (DataTable.mkState 3 EmptyString None DataTable.asc 10)
              ltac:(vm_compute; split; discriminate))
    as (Hcount & _).
  exact (eq_trans Hcount eq_refl).
Defined.

(** ** Page buttons, sorting, and the remove button of the entries table *)

Section Buttons.

Lemma pageButtons_nth (total current : Z) (i : nat) :
  (Z.of_nat i < Z.min 5 total)%Z ->
  nth_error (DataTable.pageButtons total current) i
  = Some
      (let page := (Z.max 1 (Z.min (total - 4) (current - 2)) + Z.of_nat i)%Z in
       if (page >? total)%Z then None else Some page).
Proof.
  intros Hi. unfold DataTable.pageButtons.
  rewrite nth_error_map, nth_error_seq.
  destruct (Nat.ltb_spec i (Z.to_nat (Z.min 5 total))) as [_|Hge]; [reflexivity|lia].
Qed.

Lemma length_pageButtons (total current : Z) :
  List.length (DataTable.pageButtons total current) = Z.to_nat (Z.min 5 total).
Proof. unfold DataTable.pageButtons. rewrite length_map, length_seq. reflexivity. Qed.

End Buttons.

(** X18. With the current page among the pages, the page buttons are
    [min(5, totalPages)] consecutive page numbers, each between 1 and
    [totalPages] (no button is left out), and the current page is one of
    them. *)
Theorem X18_page_buttons_surround_the_current_page :
  forall total current : Z,
    (1 <= current <= total)%Z ->
    let first := Z.max 1 (Z.min (total - 4) (current - 2)) in
    List.length (DataTable.pageButtons total current) = Z.to_nat (Z.min 5 total)
    /\ (forall i, (i < List.length (DataTable.pageButtons total current))%nat ->
                  nth_error (DataTable.pageButtons total current) i
                  = Some (Some (first + Z.of_nat i)%Z)
                  /\ (1 <= first + Z.of_nat i <= total)%Z)
    /\ In (Some current) (DataTable.pageButtons total current).
Proof.
  intros total current Hc first.
  split; [apply length_pageButtons|]. split.
  - intros i Hi. rewrite length_pageButtons in Hi.
    rewrite pageButtons_nth by lia. fold first. cbv zeta.
    assert (Hin : (1 <= first + Z.of_nat i <= total)%Z) by (unfold first; lia).
    destruct (Z.gtb_spec (first + Z.of_nat i) total) as [Hgt|_]; [lia|].
    split; [reflexivity|exact Hin].
  - apply (nth_error_In _ (Z.to_nat (current - first))).
    rewrite pageButtons_nth by (unfold first; lia). fold first. cbv zeta.
    replace (first + Z.of_nat (Z.to_nat (current - first)))%Z with current
      by (unfold first; lia).
    destruct (Z.gtb_spec current total) as [Hgt|_]; [lia|reflexivity].
Qed.

Lemma X18_page_buttons_surround_the_current_page_witness :
  In (Some 7%Z) (DataTable.pageButtons 9 7)
  /\ nth_error (DataTable.pageButtons 9 7) 0 = Some (Some 5%Z)
  /\ List.length (DataTable.pageButtons 3 1) = 3%nat.
Proof.
  destruct (X18_page_buttons_surround_the_current_page 9 7
              ltac:(split; discriminate))
    as (_ & Hnth & Hin).
  destruct (X18_page_buttons_surround_the_current_page 3 1
              ltac:(split; discriminate))
    as (Hlen & _).
  split; [exact Hin|]. split; [|exact Hlen].
  exact (proj1 (Hnth 0%nat ltac:(vm_compute; lia))).
Defined.

(** X19. A click on a column header sorts by that column in ascending
    order when another column, or none, was sorted, and turns the direction
    round when that column was sorted, so that two clicks on the sorted
    column restore the direction; on a table that is not sortable a click
    does nothing. The page, the search term and the page size are not
    touched. *)
Theorem X19_handleSort_toggles_the_direction :
  forall (props : DataTable.Props) (column : string) (st : DataTable.State),
    let st' := DataTable.handleSort props column st in
    (DataTable.sortable props = false -> st' = st)
    /\ (DataTable.sortable props = true ->
        DataTable.sortColumn st' = Some column
        /\ (DataTable.sortColumn st = Some column ->
            DataTable.sortDirection st' = DataTable.flip (DataTable.sortDirection st)
            /\ DataTable.sortDirection (DataTable.handleSort props column st')
               = DataTable.sortDirection st)
        /\ (DataTable.sortColumn st <> Some column ->
            DataTable.sortDirection st' = DataTable.asc))
    /\ DataTable.currentPage st' = DataTable.currentPage st
    /\ DataTable.searchTerm st' = DataTable.searchTerm st
    /\ DataTable.itemsPerPage st' = DataTable.itemsPerPage st.
Proof.
  intros props column st st'. unfold st', DataTable.handleSort.
  destruct (DataTable.sortable props); simpl.
  - split; [discriminate|]. split.
    + intros _. destruct (DataTable.sortColumn st) as [c|] eqn:Hc.
      * destruct (String.eqb_spec c column) as [->|Hne]; simpl.
        -- split; [reflexivity|]. split.
           ++ intros _. split; [reflexivity|].
              rewrite String.eqb_refl. simpl.
              destruct (DataTable.sortDirection st); reflexivity.
           ++ intros H. contradiction H. reflexivity.
        -- split; [reflexivity|]. split.
           ++ intros H. injection H as H. contradiction.
           ++ reflexivity.
      * simpl. split; [reflexivity|]. split; [discriminate|reflexivity].
    + destruct (DataTable.sortColumn st) as [c|]; [|repeat split].
      destruct (String.eqb c column); repeat split.
  - split; [reflexivity|]. split; [discriminate|repeat split].
Qed.

Lemma X19_handleSort_toggles_the_direction_witness :
  DataTable.sortDirection
    (DataTable.handleSort DataTable.defaultProps "voucherNo"
       (DataTable.handleSort DataTable.defaultProps "voucherNo"
          (DataTable.initialState DataTable.defaultProps)))
  = DataTable.desc
  /\ DataTable.handleSort (DataTable.mkProps true false true 10) "voucherNo"
       (DataTable.initialState DataTable.defaultProps)
     = DataTable.initialState DataTable.defaultProps.
Proof.
  destruct (X19_handleSort_toggles_the_direction DataTable.defaultProps "voucherNo"
              (DataTable.handleSort DataTable.defaultProps "voucherNo"
                 (DataTable.initialState DataTable.defaultProps)))
    as (_ & Hon & _).
  destruct (X19_handleSort_toggles_the_direction (DataTable.mkProps true false true 10)
              "voucherNo" (DataTable.initialState DataTable.defaultProps))
    as (Hoff & _).
  split; [|exact (Hoff eq_refl)].
  destruct (Hon eq_refl) as (_ & Hflip & _).
  exact (eq_trans (proj1 (Hflip eq_refl)) eq_refl).
Defined.

(** X20. The entries table of the voucher page, while it neither searches
    nor sorts, shows on page [p] at row [i] the entry at position
    [(p - 1) * itemsPerPage + i] of the entries, and the remove button of
    that row removes the entry at position [i]: on the first page the entry
    removed is the entry shown. *)
Theorem X20_remove_button_uses_the_row_index :
  forall (cells : Schema.VoucherEntry -> list string)
         (less : string -> Schema.VoucherEntry -> Schema.VoucherEntry -> bool)
         (tbl : DataTable.State) (page : VoucherDialog.Page) (i : nat),
    let es := VoucherPage.entries (VoucherDialog.state page) in
    let shown := DataTable.paginatedData cells less DataTable.defaultProps tbl es in
    let offset := Z.to_nat ((DataTable.currentPage tbl - 1)
                            * Z.pos (DataTable.itemsPerPage tbl)) in
    Paging.plain tbl ->
    (1 <= DataTable.currentPage tbl)%Z ->
    (i < Pos.to_nat (DataTable.itemsPerPage tbl))%nat ->
    nth_error shown i = nth_error es (offset + i)
    /\ VoucherPage.entries (VoucherDialog.state (VoucherDialog.clickRemove i page))
       = (firstn i es ++ skipn (S i) es)%list
    /\ (DataTable.currentPage tbl = 1%Z -> nth_error shown i = nth_error es i).
Proof.
  intros cells less tbl page i es shown offset [Hsearch Hsort] Hp Hi.
  assert (Hshown : shown
                   = firstn (Pos.to_nat (DataTable.itemsPerPage tbl)) (skipn offset es)).
  { unfold shown, DataTable.paginatedData, DataTable.sortedData,
      DataTable.filteredData.
    rewrite Hsort, Hsearch.
    transitivity (Paging.page es (DataTable.itemsPerPage tbl) (DataTable.currentPage tbl));
      [reflexivity|].
    apply (page_rows es (DataTable.itemsPerPage tbl) (DataTable.currentPage tbl) Hp). }
  assert (Hnth : nth_error shown i = nth_error es (offset + i)).
  { rewrite Hshown, nth_error_firstn.
    destruct (Nat.ltb_spec i (Pos.to_nat (DataTable.itemsPerPage tbl))) as [_|Hge];
      [|lia].
    apply nth_error_skipn. }
  split; [exact Hnth|]. split.
  - apply removeEntry_entries.
  - intros H1. rewrite Hnth. unfold offset. rewrite H1. reflexivity.
Qed.

Lemma X20_remove_button_uses_the_row_index_witness :
  nth_error
    (DataTable.paginatedData (fun e => [Schema.particulars e]) (fun _ _ _ => false)
       DataTable.defaultProps (DataTable.mkState 2 EmptyString None DataTable.asc 5)
       (map (fun i => Schema.mkEntry "line" (inject_Z (Z.of_nat i)) 0) (seq 0 7)))
    1
  = Some (Schema.mkEntry "line" 6 0)
  /\ nth_error
       (VoucherPage.entries
          (VoucherDialog.state
             (VoucherDialog.clickRemove 1
                (VoucherDialog.mkPage
                   (VoucherPage.mkState Samples.paymentForm
                      (map (fun i => Schema.mkEntry "line" (inject_Z (Z.of_nat i)) 0)
                         (seq 0 7))
                      VoucherPage.blankEntry None [])
                   true))))
       1
     = Some (Schema.mkEntry "line" 2 0).
Proof.
  destruct (X20_remove_button_uses_the_row_index
              (fun e => [Schema.particulars e]) (fun _ _ _ => false)
              (DataTable.mkState 2 EmptyString None DataTable.asc 5)
              (VoucherDialog.mkPage
                 (VoucherPage.mkState Samples.paymentForm
                    (map (fun i => Schema.mkEntry "line" (inject_Z (Z.of_nat i)) 0)
                       (seq 0 7))
                    VoucherPage.blankEntry None [])
                 true)
              1%nat (conj eq_refl eq_refl) ltac:(discriminate)
              ltac:(vm_compute; lia))
    as (Hshown & Hremoved & _).
  split.
  - exact (eq_trans Hshown eq_refl).
  - rewrite Hremoved. reflexivity.
Defined.

(** ** The loan entry form *)



(** ** The login route *)

Section LoginRoute.
Variable comparePassword : string -> string -> bool.
Variable generateToken : Login.User -> string.

Lemma login_missing (users : list Login.User) (body : Login.Body) :
  Login.missing (Login.bodyUsername body) || Login.missing (Login.bodyPassword body) = true ->
  Login.login comparePassword generateToken users body
  = Login.mkResponse 400 (Login.MessageOnly "Username and password are required").
Proof. unfold Login.login. intros ->. reflexivity. Qed.

Lemma login_present (users : list Login.User) (wanted given : string) :
  Js.falsy wanted = false -> Js.falsy given = false ->
  Login.login comparePassword generateToken users
    (Login.mkBody (Some wanted) (Some given))
  = match Login.getUserByUsername users wanted with
    | Some user =>
        if Login.isActive user && comparePassword given (Login.password user)
        then Login.mkResponse 200
               (Login.LoggedIn "Login successful" (generateToken user)
                  (Login.withoutPassword user))
        else Login.mkResponse 401 (Login.MessageOnly "Invalid credentials")
    | None => Login.mkResponse 401 (Login.MessageOnly "Invalid credentials")
    end.
Proof.
  intros Hw Hg. unfold Login.login. simpl. rewrite Hw, Hg. simpl.
  destruct (Login.getUserByUsername users wanted) as [user|]; [|reflexivity].
  destruct (Login.isActive user); simpl; [|reflexivity].
  destruct (comparePassword given (Login.password user)); reflexivity.
Qed.

End LoginRoute.

(** X22. The login route answers 200 with a token exactly when the body
    carries a username and a password that are not empty, a user of the
    table has that username, the first such user is active, and the password
    matches the stored hash; the answer then carries the token of that user
    and the user without the password. Every other request is answered 400
    or 401. *)
Theorem X22_login_succeeds_only_for_an_active_user_with_the_password :
  forall (comparePassword : string -> string -> bool)
         (generateToken : Login.User -> string)
         (users : list Login.User) (body : Login.Body),
    let resp := Login.login comparePassword generateToken users body in
    (Login.status resp = 200%nat <->
     exists wanted given user,
       body = Login.mkBody (Some wanted) (Some given)
       /\ Js.falsy wanted = false /\ Js.falsy given = false
       /\ Login.getUserByUsername users wanted = Some user
       /\ In user users /\ Login.username user = wanted
       /\ Login.isActive user = true
       /\ comparePassword given (Login.password user) = true
       /\ Login.json resp
          = Login.LoggedIn "Login successful" (generateToken user)
              (Login.withoutPassword user))
    /\ (Login.status resp = 200%nat \/ Login.status resp = 400%nat
        \/ Login.status resp = 401%nat).
Proof.
  intros comparePassword generateToken users body resp. unfold resp.
  destruct body as [[wanted|] [given|]];
    try (rewrite login_missing by (simpl; rewrite ?orb_true_r; reflexivity);
         split; [split; [discriminate|intros (w & g & u & H & _); discriminate H]
                |right; left; reflexivity]).
  destruct (Js.falsy wanted) eqn:Hw;
    [rewrite login_missing by (simpl; rewrite Hw; reflexivity);
     split; [split; [discriminate|]|right; left; reflexivity];
     intros (w & g & u & H & Hw' & _); injection H as <- <-; congruence|].
  destruct (Js.falsy given) eqn:Hg;
    [rewrite login_missing by (simpl; rewrite Hw, Hg; reflexivity);
     split; [split; [discriminate|]|right; left; reflexivity];
     intros (w & g & u & H & _ & Hg' & _); injection H as <- <-; congruence|].
  rewrite (login_present comparePassword generateToken users wanted given Hw Hg).
  destruct (Login.getUserByUsername users wanted) as [user|] eqn:Hfind.
  - destruct (Login.isActive user && comparePassword given (Login.password user))
      eqn:Hok; simpl.
    + split; [|left; reflexivity]. split; [intros _|reflexivity].
      apply andb_true_iff in Hok. destruct Hok as [Hact Hpw].
      unfold Login.getUserByUsername in Hfind.
      destruct (find_some _ _ Hfind) as [Hin Hname]. apply String.eqb_eq in Hname.
      exists wanted, given, user. repeat split; auto.
    + split; [|right; right; reflexivity]. split; [discriminate|].
      intros (w & g & u & H & _ & _ & Hf & _ & _ & Hact & Hpw & _).
      injection H as <- <-. rewrite Hfind in Hf. injection Hf as <-.
      rewrite Hact, Hpw in Hok. discriminate Hok.
  - simpl. split; [|right; right; reflexivity]. split; [discriminate|].
    intros (w & g & u & H & _ & _ & Hf & _). injection H as <- <-. rewrite Hfind in Hf. discriminate Hf.
Qed.

(** X23. A failed login does not tell why it failed: with a username and a
    password that are not empty, an unknown username, an inactive user and a
    wrong password all get the same answer, 401 with the message
    "Invalid credentials". *)
Theorem X23_failed_logins_get_the_same_answer :
  forall (comparePassword : string -> string -> bool)
         (generateToken : Login.User -> string)
         (users : list Login.User) (wanted given : string),
    Js.falsy wanted = false ->
    Js.falsy given = false ->
    let resp :=
      Login.login comparePassword generateToken users
        (Login.mkBody (Some wanted) (Some given)) in
    Login.status resp <> 200%nat ->
    resp = Login.mkResponse 401 (Login.MessageOnly "Invalid credentials").
Proof.
  intros comparePassword generateToken users wanted given Hw Hg resp. unfold resp.
  rewrite (login_present comparePassword generateToken users wanted given Hw Hg).
  destruct (Login.getUserByUsername users wanted) as [user|]; [|reflexivity].
  destruct (Login.isActive user && comparePassword given (Login.password user));
    simpl; [intros H; contradiction H|]; reflexivity.
Qed.

Lemma X23_failed_logins_get_the_same_answer_witness :
  Login.login Login.sampleCompare Login.sampleToken Login.sampleUsers
    (Login.mkBody (Some "nobody") (Some "secret"))
  = Login.mkResponse 401 (Login.MessageOnly "Invalid credentials")
  /\ Login.login Login.sampleCompare Login.sampleToken Login.sampleUsers
       (Login.mkBody (Some "admin") (Some "guess"))
     = Login.mkResponse 401 (Login.MessageOnly "Invalid credentials")
  /\ Login.login Login.sampleCompare Login.sampleToken Login.sampleUsers
       (Login.mkBody (Some "clerk") (Some "ledger"))
     = Login.mkResponse 401 (Login.MessageOnly "Invalid credentials").
Proof.
  split; [|split].
  - exact (X23_failed_logins_get_the_same_answer Login.sampleCompare
             Login.sampleToken Login.sampleUsers "nobody" "secret" eq_refl eq_refl
             ltac:(vm_compute; discriminate)).
  - exact (X23_failed_logins_get_the_same_answer Login.sampleCompare
             Login.sampleToken Login.sampleUsers "admin" "guess" eq_refl eq_refl
             ltac:(vm_compute; discriminate)).
  - exact (X23_failed_logins_get_the_same_answer Login.sampleCompare
             Login.sampleToken Login.sampleUsers "clerk" "ledger" eq_refl eq_refl
             ltac:(vm_compute; discriminate)).
Defined.

(** ** The search box of the data table *)

Section Search.

Lemma prefix_spec (p s : string) :
  String.prefix p s = true <-> exists post, s = (p ++ post)%string.
Proof.
  revert s. induction p as [|c p IH]; intros s; simpl.
  - split; [intros _; exists s; reflexivity|intros _; destruct s; reflexivity].
  - destruct s as [|d s].
    + split; [discriminate|intros [post H]; discriminate H].
    + simpl. destruct (Ascii.ascii_dec c d) as [->|Hne].
      * rewrite IH. split; intros [post H]; exists post.
        -- rewrite H. reflexivity.
        -- injection H as H. exact H.
      * split; [discriminate|].
        intros [post H]. injection H as Hd _. symmetry in Hd. contradiction.
Qed.

Lemma includes_spec (needle hay : string) :
  DataTable.includes needle hay = true
  <-> exists pre post, hay = (pre ++ needle ++ post)%string.
Proof.
  induction hay as [|c hay IH].
  - change (DataTable.includes needle EmptyString)
      with (String.prefix needle EmptyString || false).
    rewrite orb_false_r, prefix_spec. split.
    + intros [post H]. exists EmptyString, post. exact H.
    + intros (pre & post & H). destruct pre as [|x pre]; [|discriminate H].
      exists post. exact H.
  - change (DataTable.includes needle (String c hay))
      with (String.prefix needle (String c hay) || DataTable.includes needle hay).
    rewrite orb_true_iff, prefix_spec, IH. split.
    + intros [[post H]|(pre & post & H)].
      * exists EmptyString, post. exact H.
      * exists (String c pre), post. rewrite H. reflexivity.
    + intros (pre & post & H). destruct pre as [|x pre].
      * left. exists post. exact H.
      * right. injection H as _ H. exists pre, post. exact H.
Qed.

Lemma includes_trans (a b c : string) :
  DataTable.includes a b = true ->
  DataTable.includes b c = true ->
  DataTable.includes a c = true.
Proof.
  rewrite !includes_spec. intros (p1 & q1 & ->) (p2 & q2 & ->).
  exists (p2 ++ p1)%string, (q1 ++ q2)%string.
  rewrite !append_assoc. reflexivity.
Qed.

Lemma falsy_toLowerCase (s : string) :
  Js.falsy (DataTable.toLowerCase s) = Js.falsy s.
Proof. destruct s; reflexivity. Qed.

Lemma includes_empty (needle : string) :
  DataTable.includes needle EmptyString = true -> needle = EmptyString.
Proof.
  rewrite includes_spec. intros (pre & post & H).
  destruct pre; [|discriminate H]. destruct needle; [reflexivity|discriminate H].
Qed.

End Search.

(** X24. The search of the data table ignores the case of the term: two
    terms with the same lower-case form show the same rows. Extending the
    term only narrows the result: when the term of [st] occurs in the term of
    [st'] (case ignored), every row shown for [st'] is shown for [st], and
    every row shown is a row of the data. *)
Theorem X24_search_ignores_case_and_longer_terms_narrow :
  forall (A : Type) (cells : A -> list string) (props : DataTable.Props)
         (st st' : DataTable.State) (data : list A),
    (DataTable.toLowerCase (DataTable.searchTerm st)
     = DataTable.toLowerCase (DataTable.searchTerm st') ->
     DataTable.filteredData cells props st data
     = DataTable.filteredData cells props st' data)
    /\ (DataTable.includes (DataTable.toLowerCase (DataTable.searchTerm st))
          (DataTable.toLowerCase (DataTable.searchTerm st')) = true ->
        incl (DataTable.filteredData cells props st' data)
          (DataTable.filteredData cells props st data))
    /\ incl (DataTable.filteredData cells props st data) data.
Proof.
  intros A cells props st st' data. unfold DataTable.filteredData.
  split; [|split].
  - intros Hsame.
    rewrite <- (falsy_toLowerCase (DataTable.searchTerm st)),
      <- (falsy_toLowerCase (DataTable.searchTerm st')), Hsame.
    reflexivity.
  - intros Hin. destruct (DataTable.searchable props); simpl; [|apply incl_refl].
    destruct (Js.falsy (DataTable.searchTerm st')) eqn:Hempty'; simpl.
    + rewrite <- falsy_toLowerCase in Hempty'.
      destruct (DataTable.toLowerCase (DataTable.searchTerm st')); [|discriminate].
      apply includes_empty in Hin.
      rewrite <- (falsy_toLowerCase (DataTable.searchTerm st)), Hin.
      apply incl_refl.
    + destruct (Js.falsy (DataTable.searchTerm st)); simpl.
      * intros row Hrow. apply filter_In in Hrow. apply Hrow.
      * intros row Hrow. apply filter_In in Hrow. destruct Hrow as [Hdata Hsome].
        apply filter_In. split; [exact Hdata|].
        apply existsb_exists in Hsome. destruct Hsome as (value & Hvalue & Hinc).
        apply existsb_exists. exists value. split; [exact Hvalue|].
        apply (includes_trans _ _ _ Hin Hinc).
  - destruct (_ && _); [|apply incl_refl].
    intros row Hrow. apply filter_In in Hrow. apply Hrow.
Qed.

Lemma X24_search_ignores_case_and_longer_terms_narrow_witness :
  DataTable.filteredData DataTable.sampleCells DataTable.defaultProps
    (DataTable.typed "CA") DataTable.sampleRows
  = DataTable.filteredData DataTable.sampleCells DataTable.defaultProps
      (DataTable.typed "ca") DataTable.sampleRows
  /\ incl
       (DataTable.filteredData DataTable.sampleCells DataTable.defaultProps
          (DataTable.typed "cas") DataTable.sampleRows)
       (DataTable.filteredData DataTable.sampleCells DataTable.defaultProps
          (DataTable.typed "A") DataTable.sampleRows).
Proof.
  split.
  - apply (X24_search_ignores_case_and_longer_terms_narrow _
             DataTable.sampleCells DataTable.defaultProps
             (DataTable.typed "CA") (DataTable.typed "ca") DataTable.sampleRows).
    reflexivity.
  - apply (X24_search_ignores_case_and_longer_terms_narrow _
             DataTable.sampleCells DataTable.defaultProps
             (DataTable.typed "A") (DataTable.typed "cas") DataTable.sampleRows).
    reflexivity.
Defined.

(** ** Sample runs of the primitives *)

Example parseInt_007 : Js.parseInt "007" = Js.Num 7.
Proof. reflexivity. Qed.

Example parseInt_hex : Js.parseInt "0x1F" = Js.Num 31.
Proof. reflexivity. Qed.

Example parseInt_junk : Js.parseInt "12ab" = Js.Num 12 /\ Js.parseInt "abc" = Js.NaN
                        /\ Js.parseInt EmptyString = Js.NaN /\ Js.parseInt " -5" = Js.Num (-5).
Proof. repeat split. Qed.

Example toString_samples :
  Js.toString (Js.Num 1000) = "1000" /\ Js.toString (Js.Num 0) = "0"
  /\ Js.toString (Js.Num (-4)) = "-4" /\ Js.toString Js.NaN = "NaN".
Proof. repeat split. Qed.

Example padStart_samples :
  Js.padStart 3 "0" "8" = "008" /\ Js.padStart 3 "0" "1000" = "1000"
  /\ Js.padStart 3 "0" "NaN" = "NaN" /\ Js.padStart 5 "ab" "x" = "ababx".
Proof. repeat split. Qed.

Example slice_samples :
  Js.slice 3 "L24007" = "007" /\ Js.slice (-2) "2024" = "24"
  /\ Js.slice 3 "L2" = EmptyString /\ Js.slice (-2) "7" = "7".
Proof. repeat split. Qed.

Example split_samples :
  Js.split "_" "MEM_001" = ["MEM"; "001"] /\ Js.split "_" EmptyString = [EmptyString]
  /\ Js.split "_" "A_B_C" = ["A"; "B"; "C"] /\ Js.split "_" "MEM" = ["MEM"].
Proof. repeat split. Qed.

(** ** Sample runs of the generators *)

Example first_identifiers :
  fst (Storage.generateMemberNumber (Db.startWorld 2024)) = Db.Returned "MEM_001"
  /\ fst (Storage.generateLoanNumber (Db.startWorld 2024)) = Db.Returned "L24001"
  /\ fst (Storage.generateVoucherNumber "payment" (Db.startWorld 2024))
     = Db.Returned "P24001".
Proof. repeat split. Qed.

Example voucher_numbers_count_per_type :
  let w :=
    Samples.vouchersWorld 2024
      [(Schema.payment, "P24003"); (Schema.receipt, "R24009")] in
  fst (Storage.generateVoucherNumber "payment" w) = Db.Returned "P24004"
  /\ fst (Storage.generateVoucherNumber "receipt" w) = Db.Returned "R24010"
  /\ fst (Storage.generateVoucherNumber "contra" w) = Db.Returned "C24001".
Proof. repeat split. Qed.

Example leading_digits_are_used :
  fst (Storage.generateMemberNumber (Samples.membersWorld 2024 ["MEM_12x"]))
  = Db.Returned "MEM_013"
  /\ fst (Storage.generateMemberNumber (Samples.membersWorld 2024 ["MEM_-5"]))
     = Db.Returned "MEM_0-4".
Proof. repeat split. Qed.

Example utility_member_number :
  Utils.generateMemberNumber None = "MEM_001"
  /\ Utils.generateMemberNumber (Some 41%Z) = "MEM_042".
Proof. repeat split. Qed.
